(** * DTBench dataset generation: table-to-document pipeline

    A shallow embedding of [src/dataset_generation] (planner, refiner, writer,
    verifier agents and the [process_task] driver of [main.py]) together with
    the properties of its validate-and-retry loops, stage caches and
    verify/repair loop.

    Conventions of the embedding:
    - Python [str] is [string]; [dict] is an insertion-ordered association
      list ([odict]) where the iteration order is observable, and a [gmap]
      where it is not; [set] is a [gset].
    - A function that can raise returns a [result]; a function with effects
      (files, logger, generation calls) is a computation in the monad [M]
      over an explicit [World].
    - The text-generation service, the JSON and pydantic decoders and the
      prompt templates are collaborators of the code, not part of it: the
      service is a tape of outcomes in the [World], the decoders and the
      templates are the fields of the class [Externals]. *)

From Stdlib Require Import Ascii String.
From stdpp Require Import gmap strings list fin_maps pretty.

Open Scope string_scope.
Open Scope list_scope.
Open Scope nat_scope.

(** ** Python prelude *)

Module Py.

Definition nl : string := String "010"%char "".
Definition dquote : ascii := "034"%char.

(** [sep.join(l)] *)
Fixpoint join (sep : string) (l : list string) : string :=
  match l with
  | [] => ""
  | x :: l' =>
      match l' with
      | [] => x
      | _ :: _ => x +:+ sep +:+ join sep l'
      end
  end.

(** [str.isspace] on the ASCII range. *)
Definition is_space (a : ascii) : bool :=
  match a with
  | "009" | "010" | "011" | "012" | "013"
  | "028" | "029" | "030" | "031" | " " => true
  | _ => false
  end%char.

Fixpoint lstrip (s : string) : string :=
  match s with
  | "" => ""
  | String a s' => if is_space a then lstrip s' else s
  end.

Definition rstrip (s : string) : string := String.rev (lstrip (String.rev s)).

(** [s.strip()] *)
Definition strip (s : string) : string := rstrip (lstrip s).

(** Truth value of a [str]: non-empty. *)
Definition truthy (s : string) : bool :=
  match s with "" => false | String _ _ => true end.

(** [l.index(x)]: position of the first occurrence, [ValueError] if none. *)
Fixpoint index (x : string) (l : list string) : option nat :=
  match l with
  | [] => None
  | y :: l' => if decide (x = y) then Some 0 else S <$> index x l'
  end.

Definition startswith (s p : string) : bool := String.prefix p s.

Definition endswith (s p : string) : bool :=
  String.prefix (String.rev p) (String.rev s).

Fixpoint take (n : nat) (s : string) : string :=
  match n, s with
  | 0, _ => ""
  | S _, "" => ""
  | S n', String a s' => String a (take n' s')
  end.

Fixpoint drop (n : nat) (s : string) : string :=
  match n, s with
  | 0, _ => s
  | S _, "" => ""
  | S n', String _ s' => drop n' s'
  end.

(** [s[:-k]] for [k > 0]. *)
Definition drop_end (k : nat) (s : string) : string :=
  take (String.length s - k) s.

(** [s.split(sep)] for a non-empty [sep]; [skip] counts the characters of
    a separator occurrence still to be passed over, [cur] is the current
    piece, reversed. *)
Fixpoint split_go (sep : string) (skip : nat) (cur : string) (s : string)
  : list string :=
  match s with
  | "" => [String.rev cur]
  | String a s' =>
      match skip with
      | S k => split_go sep k cur s'
      | 0 =>
          if String.prefix sep s
          then String.rev cur :: split_go sep (String.length sep - 1) "" s'
          else split_go sep 0 (String a cur) s'
      end
  end.

Definition split (sep : string) (s : string) : list string :=
  split_go sep 0 "" s.

(** [s.replace(old, new)] for a non-empty [old]. *)
Fixpoint replace_go (old new : string) (skip : nat) (s : string) : string :=
  match s with
  | "" => ""
  | String a s' =>
      match skip with
      | S k => replace_go old new k s'
      | 0 =>
          if String.prefix old s
          then new +:+ replace_go old new (String.length old - 1) s'
          else String a (replace_go old new 0 s')
      end
  end.

Definition replace (old new : string) (s : string) : string :=
  replace_go old new 0 s.

(** Position of the last [","] when scanning a reversed string: the part
    after the last comma (reversed) and the part before it (reversed). *)
Fixpoint rsplit_go (acc : string) (r : string) : option (string * string) :=
  match r with
  | "" => None
  | String a r' =>
      if decide (a = ","%char) then Some (r', acc)
      else rsplit_go (String a acc) r'
  end.

(** [s.rsplit(",", 1)] unpacked into two names: [None] stands for the
    [ValueError] of unpacking a one-element list. *)
Definition rsplit_comma (s : string) : option (string * string) :=
  match rsplit_go "" (String.rev s) with
  | Some (r, tail) => Some (String.rev r, tail)
  | None => None
  end.

(** [os.path.basename] *)
Fixpoint basename_go (acc : string) (r : string) : string :=
  match r with
  | "" => acc
  | String a r' => if decide (a = "/"%char) then acc else basename_go (String a acc) r'
  end.

Definition basename (p : string) : string := basename_go "" (String.rev p).

(** [os.path.join(a, b)] for a relative [b] and a non-empty [a] without
    trailing separator. *)
Definition path_join (a b : string) : string := a +:+ "/" +:+ b.

Fixpoint filter_chars (keep : ascii → bool) (s : string) : string :=
  match s with
  | "" => ""
  | String a s' => if keep a then String a (filter_chars keep s') else filter_chars keep s'
  end.

Fixpoint map_chars (f : ascii → ascii) (s : string) : string :=
  match s with
  | "" => ""
  | String a s' => String (f a) (map_chars f s')
  end.

(** Insertion-ordered [dict] with [str] keys. *)
Definition odict (V : Type) : Type := list (string * V).

Fixpoint od_get {V} (k : string) (d : odict V) : option V :=
  match d with
  | [] => None
  | (k', v) :: d' => if decide (k = k') then Some v else od_get k d'
  end.

(** [d[k] = v]: overwrite in place, or append. *)
Fixpoint od_set {V} (k : string) (v : V) (d : odict V) : odict V :=
  match d with
  | [] => [(k, v)]
  | (k', v') :: d' =>
      if decide (k = k') then (k', v) :: d' else (k', v') :: od_set k v d'
  end.

Definition od_mem {V} (k : string) (d : odict V) : bool :=
  match od_get k d with Some _ => true | None => false end.

Definition od_keys {V} (d : odict V) : list string := fst <$> d.
Definition od_values {V} (d : odict V) : list V := snd <$> d.

(** [l.count(x)] *)
Definition count (x : string) (l : list string) : nat :=
  length (filter (λ y, y = x) l).

(** [collections.Counter(l)]: counts in order of first occurrence. *)
Definition Counter (l : list string) : odict nat :=
  foldl (λ c k, od_set k (S (default 0 (od_get k c))) c) [] l.

End Py.

(** ** Exceptions and results *)

Inductive exn : Type :=
| ValueError
| IndexError
| KeyError (key : string)
| RuntimeError (msg : string)
| GenerationError
| JSONDecodeError
| ValidationError
| OSError (path : string).

Inductive result (A : Type) : Type :=
| Ok (a : A)
| Raise (e : exn).
Arguments Ok {A} a.
Arguments Raise {A} e.

Definition rbind {A B} (r : result A) (f : A → result B) : result B :=
  match r with Ok a => f a | Raise e => Raise e end.

Definition of_option {A} (e : exn) (o : option A) : result A :=
  match o with Some a => Ok a | None => Raise e end.

(** [[f(x) for x in l]] where [f] may raise. *)
Fixpoint rmapM {A B} (f : A → result B) (l : list A) : result (list B) :=
  match l with
  | [] => Ok []
  | x :: l' => rbind (f x) (λ y, rbind (rmapM f l') (λ ys, Ok (y :: ys)))
  end.

Definition is_ok {A} (r : result A) : bool :=
  match r with Ok _ => true | Raise _ => false end.

(** ** Data model ([models.py]) *)

Module StrategyAssignment.
Record t : Type := Build { assignments : gmap string (list string) }.
End StrategyAssignment.

Module FactWritingGuidance.
Record t : Type := Build {
  primary_key : string;
  attribute : string;
  fact : string;
  writing_guidance : string;
  sub_facts : Py.odict string
}.
End FactWritingGuidance.

Module SectionPlan.
Record t : Type := Build {
  section_id : Z;
  title : string;
  goal : string;
  summary : string;
  facts : list string
}.
End SectionPlan.

Module DocumentPlan.
Record t : Type := Build {
  theme : string;
  genre : string;
  sections : list SectionPlan.t
}.
End DocumentPlan.

(** [models.Section]; [Section] is a reserved word here. *)
Module DocSection.
Record t : Type := Build {
  section_id : Z;
  title : string;
  content : string;
  verified : bool
}.
End DocSection.

Module Document.
Record t : Type := Build {
  theme : string;
  genre : string;
  sections : list DocSection.t
}.
End Document.

Module VerificationResult.
Record t : Type := Build {
  ok : bool;
  errors : list (Py.odict string)
}.
End VerificationResult.

(** A JSON cell or header entry: a scalar, given by its [str()] rendering,
    or a list of scalars (the one-element wrapper of the input format). *)
Inductive cell : Type :=
| Scalar (s : string)
| Wrapper (l : list string).

Inductive pk_spec : Type :=
| PkName (s : string)
| PkNames (l : list string).

(** The input table record ([table_data]). *)
Module TableData.
Record t : Type := Build {
  header : list cell;
  primary_key : pk_spec;
  data : list (list cell)
}.
End TableData.

Inductive pk_index : Type :=
| PkIdx (i : nat)
| PkIdxs (l : list nat).

(** ** Configuration ([config.py]) *)

Module Config.
Record t : Type := Build {
  ENABLE_STRATEGY_ASSIGNMENT : bool;
  REFINE_MAX_RETRIES : nat;
  PLAN_MAX_RETRIES : nat;
  VERIFY_AND_REPAIR_MAX_RETRIES : nat;
  OUTPUT_PATH : string
}.

(** The values of the repository's [config.py]. *)
Definition shipped : t :=
  {| ENABLE_STRATEGY_ASSIGNMENT := true;
     REFINE_MAX_RETRIES := 3;
     PLAN_MAX_RETRIES := 3;
     VERIFY_AND_REPAIR_MAX_RETRIES := 4;
     OUTPUT_PATH := "document" |}.
End Config.

(** ** The world: files, logger, generation service *)

Record message : Type := Message { role : string; content : string }.

Inductive level : Type := DEBUG | INFO | WARNING | ERROR.

(** What a path holds.  A JSON artifact is kept as the record it
    deserializes to: [read_json] followed by the pydantic constructor of a
    record type succeeds exactly on an artifact of that type.  [FText] is a
    plain-text file, [FDir] a directory. *)
Inductive file : Type :=
| FTable (t : TableData.t)
| FStrategy (a : StrategyAssignment.t)
| FFactList (l : list FactWritingGuidance.t)
| FFact (f : FactWritingGuidance.t)
| FGuidance (g : string)
| FPlan (p : DocumentPlan.t)
| FSection (s : DocSection.t)
| FText (s : string)
| FDir.

Record World : Type := MkWorld {
  (** the file system, by path *)
  fs : gmap string file;
  (** paths on which a write or a removal fails with [OSError] *)
  faulty : gset string;
  (** [Some n]: the process dies at the [n+1]-th file-system mutation from
      here; [None]: it is never interrupted *)
  budget : option nat;
  (** outcomes of the successive [call_llm] invocations: the returned text,
      or [None] when the call raises after its internal retries *)
  llm_tape : list (option string);
  (** the contexts sent to [call_llm], latest first *)
  llm_calls : list (list message);
  (** the logger's records, latest first *)
  log : list (level * string);
  (** directories removed by [shutil.rmtree], latest first *)
  removed : list string;
  (** the scheduler's choices: which of the futures still running
      completes next (a position among them, taken modulo their number) *)
  schedule : list nat;
  (** the [Section] objects of the running job, by reference: the verify
      and repair step mutates them in place *)
  heap : list DocSection.t
}.

Definition set_fs (f : gmap string file → gmap string file) (w : World) : World :=
  MkWorld (f (fs w)) (faulty w) (budget w) (llm_tape w) (llm_calls w) (log w)
    (removed w) (schedule w) (heap w).
Definition set_budget (b : option nat) (w : World) : World :=
  MkWorld (fs w) (faulty w) b (llm_tape w) (llm_calls w) (log w) (removed w)
    (schedule w) (heap w).
Definition set_llm (tape : list (option string)) (calls : list (list message))
    (w : World) : World :=
  MkWorld (fs w) (faulty w) (budget w) tape calls (log w) (removed w)
    (schedule w) (heap w).
Definition set_log (l : list (level * string)) (w : World) : World :=
  MkWorld (fs w) (faulty w) (budget w) (llm_tape w) (llm_calls w) l (removed w)
    (schedule w) (heap w).
Definition set_removed (r : list string) (w : World) : World :=
  MkWorld (fs w) (faulty w) (budget w) (llm_tape w) (llm_calls w) (log w) r
    (schedule w) (heap w).
Definition set_schedule (sc : list nat) (w : World) : World :=
  MkWorld (fs w) (faulty w) (budget w) (llm_tape w) (llm_calls w) (log w)
    (removed w) sc (heap w).
Definition set_heap (h : list DocSection.t) (w : World) : World :=
  MkWorld (fs w) (faulty w) (budget w) (llm_tape w) (llm_calls w) (log w)
    (removed w) (schedule w) h.

(** How a computation ends: it returns, raises, or the process is killed. *)
Inductive outcome (A : Type) : Type :=
| Returned (a : A)
| Raised (e : exn)
| Crashed.
Arguments Returned {A} a.
Arguments Raised {A} e.
Arguments Crashed {A}.

Definition M (A : Type) : Type := World → outcome A * World.

Definition ret {A} (a : A) : M A := λ w, (Returned a, w).
Definition raise {A} (e : exn) : M A := λ w, (Raised e, w).

Definition bind {A B} (m : M A) (k : A → M B) : M B := λ w,
  match m w with
  | (Returned a, w') => k a w'
  | (Raised e, w') => (Raised e, w')
  | (Crashed, w') => (Crashed, w')
  end.

Notation "'let*' x ':=' m 'in' k" := (bind m (λ x, k))
  (at level 10, x name, m at level 100, k at level 200, only parsing).
Notation "'let*' ' p ':=' m 'in' k" := (bind m (λ x, match x with p => k end))
  (at level 10, p pattern, m at level 100, k at level 200, only parsing).
Notation "m1 ';;' m2" := (bind m1 (λ _, m2))
  (at level 100, m2 at level 200, right associativity, only parsing).

(** [try: m except Exception as e: h e] *)
Definition try_except {A} (m : M A) (h : exn → M A) : M A := λ w,
  match m w with
  | (Raised e, w') => h e w'
  | r => r
  end.

Definition lift {A} (r : result A) : M A :=
  match r with Ok a => ret a | Raise e => raise e end.

(** *** Futures

    The units of a fan-out are run one after the other, each to its end; a
    future holds what its unit returned or raised.  [as_completed] yields
    the futures in the order chosen by the scheduler. *)

Definition submit {A} (task : M A) : M (result A) := λ w,
  match task w with
  | (Returned a, w') => (Returned (Ok a), w')
  | (Raised e, w') => (Returned (Raise e), w')
  | (Crashed, w') => (Crashed, w')
  end.

Fixpoint completion_order {A} (sched : list nat) (n : nat) (running : list A) : list A :=
  match n with
  | 0 => []
  | S n' =>
      let i := hd 0 sched `mod` length running in
      match running !! i with
      | Some x => x :: completion_order (tl sched) n' (delete i running)
      | None => []
      end
  end.

Definition as_completed {A} (futures : list A) : M (list A) := λ w,
  (Returned (completion_order (schedule w) (length futures) futures),
   set_schedule (drop (length futures) (schedule w)) w).

(** [[task(x) for x in l]], in order *)
Fixpoint mapM {A B} (f : A → M B) (l : list A) : M (list B) :=
  match l with
  | [] => ret []
  | x :: l' => let* y := f x in let* ys := mapM f l' in ret (y :: ys)
  end.

(** *** Objects *)

Global Instance DocSection_inhabited : Inhabited DocSection.t :=
  populate (DocSection.Build 0 "" "" false).

(** A new object; its reference is returned. *)
Definition alloc (s : DocSection.t) : M nat := λ w,
  (Returned (length (heap w)), set_heap (heap w ++ [s]) w).

Definition get_heap : M (list DocSection.t) := λ w, (Returned (heap w), w).

Definition get_obj (r : nat) : M DocSection.t := λ w, (Returned (heap w !!! r), w).

(** Attribute assignment on the object [r]. *)
Definition update_obj (r : nat) (f : DocSection.t → DocSection.t) : M unit := λ w,
  (Returned (), set_heap (alter f r (heap w)) w).

(** *** [utils.logger] *)

Definition logger (lvl : level) (msg : string) : M unit := λ w,
  (Returned (), set_log ((lvl, msg) :: log w) w).

(** *** [utils.call_llm]

    The client and the retry loop with backoff around it are outside the
    model: one entry of the tape is the outcome of one invocation. *)
Definition call_llm (messages : list message) : M string := λ w,
  match llm_tape w with
  | Some text :: tape => (Returned text, set_llm tape (messages :: llm_calls w) w)
  | None :: tape => (Raised GenerationError, set_llm tape (messages :: llm_calls w) w)
  | [] => (Raised GenerationError, set_llm [] (messages :: llm_calls w) w)
  end.

(** *** File system *)

(** One file-system mutation: the point at which the process can die. *)
Definition mutate (f : gmap string file → gmap string file) : M unit := λ w,
  match budget w with
  | Some 0 => (Crashed, w)
  | Some (S n) => (Returned (), set_budget (Some n) (set_fs f w))
  | None => (Returned (), set_fs f w)
  end.

(** [os.path.exists] *)
Definition path_exists (path : string) : M bool := λ w,
  (Returned (bool_decide (is_Some (fs w !! path))), w).

Definition is_faulty (path : string) : M bool := λ w,
  (Returned (bool_decide (path ∈ faulty w)), w).

(** [utils.read_json] *)
Definition read_json (path : string) : M file := λ w,
  match fs w !! path with
  | None | Some FDir => (Raised (OSError path), w)
  | Some (FText _) => (Raised JSONDecodeError, w)
  | Some f => (Returned f, w)
  end.

(** [utils.write_json] *)
Definition write_json (path : string) (f : file) : M unit :=
  let* bad := is_faulty path in
  if bad then raise (OSError path) else mutate (insert path f).

(** [os.makedirs(path, exist_ok=True)] *)
Definition makedirs (path : string) : M unit :=
  let* there := path_exists path in
  if there then ret ()
  else
    let* bad := is_faulty path in
    if bad then raise (OSError path) else mutate (insert path FDir).

(** [shutil.copy2(src, dst)] *)
Definition copy2 (src dst : string) : M unit := λ w,
  match fs w !! src with
  | None | Some FDir => (Raised (OSError src), w)
  | Some f => write_json dst f w
  end.

(** [open(path, 'w')]: the file is created empty, or truncated. *)
Definition open_w (path : string) : M unit :=
  let* bad := is_faulty path in
  if bad then raise (OSError path) else mutate (insert path (FText "")).

(** [f.write(text)] on a file opened by [open_w]. *)
Definition f_write (path text : string) : M unit :=
  mutate (λ m, match m !! path with
               | Some (FText old) => <[path := FText (old +:+ text)]> m
               | _ => m
               end).

Definition under (dir path : string) : bool :=
  bool_decide (path = dir) || Py.startswith path (dir +:+ "/").

(** [shutil.rmtree(dir)] *)
Definition rmtree (dir : string) : M unit :=
  let* there := path_exists dir in
  if negb there then raise (OSError dir)
  else
    let* bad := is_faulty dir in
    if bad then raise (OSError dir)
    else
      mutate (filter (λ kv, under dir kv.1 = false));;
      λ w, (Returned (), set_removed (dir :: removed w) w).

(** [utils.safe_filename] *)
Definition unsafe_char (a : ascii) : bool :=
  bool_decide (a ∈ ["\"; "/"; "*"; "?"; ":"; Py.dquote; "<"; ">"; "|"]%char).

Definition safe_filename (text : string) : string :=
  Py.take 100
    (Py.map_chars (λ a, if decide (a = " "%char) then "_"%char else a)
       (Py.filter_chars (λ a, negb (unsafe_char a)) text)).

(** Decoders: the pydantic constructor applied to a loaded artifact. *)
Definition as_table (f : file) : result TableData.t :=
  match f with FTable t => Ok t | _ => Raise ValidationError end.
Definition as_strategy (f : file) : result StrategyAssignment.t :=
  match f with FStrategy a => Ok a | _ => Raise ValidationError end.
Definition as_fact_list (f : file) : result (list FactWritingGuidance.t) :=
  match f with FFactList l => Ok l | _ => Raise ValidationError end.
Definition as_fact (f : file) : result FactWritingGuidance.t :=
  match f with FFact x => Ok x | _ => Raise ValidationError end.
Definition as_guidance (f : file) : result string :=
  match f with FGuidance g => Ok g | _ => Raise (KeyError "guidance") end.
Definition as_plan (f : file) : result DocumentPlan.t :=
  match f with FPlan p => Ok p | _ => Raise ValidationError end.
Definition as_section (f : file) : result DocSection.t :=
  match f with FSection s => Ok s | _ => Raise ValidationError end.

(** ** Collaborators outside the code

    [prompts_format name kwargs] is the template [name] of [prompts.py]
    formatted with the keyword arguments [kwargs], and [prompts_const name] a constant of [prompts.py]; the [parse_*]
    functions are [utils.parse_json] followed by the accesses the caller
    makes on the decoded value (and the pydantic constructor where the
    caller applies one), raising when any of them does. *)
Class Externals : Type := {
  prompts_format : string → list (string * string) → string;
  prompts_const : string → string;
  (** [str(l)] of a list of [str] *)
  py_repr : list string → string;
  (** [json.dumps(l)] of a list of [str] *)
  json_dumps : list string → string;
  (** [json.dumps(d, ensure_ascii=False)] of a [Dict[str, str]] *)
  json_dumps_dict : Py.odict string → string;
  DETAILED_STRATEGY_DEFINITIONS : Py.odict string;
  SHORT_STRATEGY_DEFINITIONS : Py.odict string;
  (** section-count bounds of the planning prompt, derived from the number
      of facts by float division and [round] *)
  section_bounds : nat → string * string;
  (** dispersion guidance text selected by [config.DISPERSION_STRATEGY] *)
  dispersion_guidance : string;
  (** [data["assignments"]] as nested items, strategies as [List[str]] *)
  parse_strategy_response : string → result (Py.odict (Py.odict (list string)));
  (** [DocumentPlan] built from [data], the [facts] entries as generated *)
  parse_plan_response : string → result DocumentPlan.t;
  (** [data["guidance"]] *)
  parse_guidance_response : string → result string;
  (** [data["ok"]] and, when it is false, the [(description, suggestion)]
      pairs of [data["errors"]] *)
  parse_check_response : string → result (bool * list (string * string));
  (** [data["is_split"]] and, when it is true, [data["sub_facts"]] *)
  parse_fact_response : string → result (bool * Py.odict string);
  (** [VerificationResult] built from [data] *)
  parse_verification_response : string → result VerificationResult.t
}.

(** [{k: v for ...}]: later items overwrite earlier ones. *)
Definition dict_of_items {V} (items : list (string * V)) : gmap string V :=
  foldl (λ m kv, <[kv.1 := kv.2]> m) ∅ items.

(** [str(c[0]) if isinstance(c, list) and c else str(c)] *)
Definition flat (c : cell) : string :=
  match c with
  | Scalar s => s
  | Wrapper [] => "[]"
  | Wrapper (x :: _) => x
  end.

Definition in_pk (i : nat) (pk : pk_index) : bool :=
  match pk with
  | PkIdx j => bool_decide (i = j)
  | PkIdxs l => bool_decide (i ∈ l)
  end.

(** The primary-key value of a flattened row. *)
Definition row_pk (flat_row : list string) (pk : pk_index) : result string :=
  match pk with
  | PkIdxs l =>
      rbind (rmapM (λ i, of_option IndexError (flat_row !! i)) l)
        (λ vs, Ok (Py.join ", " vs))
  | PkIdx i => of_option IndexError (flat_row !! i)
  end.

(** [f"{row_pk},{col_name}"] *)
Definition cell_key (row_pk col_name : string) : string :=
  row_pk +:+ "," +:+ col_name.

(** The markdown rendering shared by the agents' [_json_to_markdown]. *)
Definition md_row (cells : list string) : string :=
  "| " +:+ Py.join " | " cells +:+ " |" +:+ Py.nl.

Definition md_table (table_data : TableData.t) : string :=
  let flat_header := flat <$> TableData.header table_data in
  md_row flat_header +:+ md_row ((λ _, "---") <$> flat_header)
  +:+ foldr (λ row md, md_row (flat <$> row) +:+ md) "" (TableData.data table_data).

(** ** [planner_agent.StrategicPlannerAgent] *)

Module Planner.
Section Planner.
Context `{!Externals} (config : Config.t).

Definition _parse_table_header (table_data : TableData.t)
  : result (list string * string * pk_index) :=
  let header := flat <$> TableData.header table_data in
  match TableData.primary_key table_data with
  | PkNames primary_key =>
      rbind (rmapM (λ pk, of_option ValueError (Py.index pk header)) primary_key)
        (λ pk_index, Ok (header, Py.join ", " primary_key, PkIdxs pk_index))
  | PkName primary_key =>
      rbind (of_option ValueError (Py.index primary_key header))
        (λ pk_index, Ok (header, primary_key, PkIdx pk_index))
  end.

(** The inner loop of [_get_nonempty_cells]: the columns of one row, from
    position [i] on. *)
Fixpoint row_cells (row_pk : string) (pk : pk_index) (flat_row : list string)
    (i : nat) (header : list string) (cells : gset string) : result (gset string) :=
  match header with
  | [] => Ok cells
  | col_name :: header' =>
      if in_pk i pk then row_cells row_pk pk flat_row (S i) header' cells
      else
        match flat_row !! i with
        | None => Raise IndexError
        | Some val =>
            row_cells row_pk pk flat_row (S i) header'
              (if Py.truthy val && Py.truthy (Py.strip val)
               then cells ∪ {[cell_key row_pk col_name]}
               else cells)
        end
  end.

Fixpoint rows_cells (header : list string) (pk : pk_index)
    (data : list (list cell)) (cells : gset string) : result (gset string) :=
  match data with
  | [] => Ok cells
  | row :: data' =>
      let flat_row := flat <$> row in
      match flat_row with
      | [] => rows_cells header pk data' cells
      | _ :: _ =>
          rbind (row_pk flat_row pk) (λ rpk,
          rbind (row_cells rpk pk flat_row 0 header cells) (λ cells',
          rows_cells header pk data' cells'))
      end
  end.

Definition _get_nonempty_cells (table_data : TableData.t) (header : list string)
    (primary_key : string) (pk : pk_index) : result (gset string) :=
  rows_cells header pk (TableData.data table_data) ∅.

Definition _validate_strategy_assignment (assignment : StrategyAssignment.t)
    (table_data : TableData.t) : result string :=
  rbind (_parse_table_header table_data) (λ '(header, primary_key, pk),
  rbind (_get_nonempty_cells table_data header primary_key pk) (λ expected_cells,
    let assigned_cells := dom (StrategyAssignment.assignments assignment) in
    let missing_cells := expected_cells ∖ assigned_cells in
    if decide (missing_cells = ∅) then Ok ""
    else Ok ("Missing cells: " +:+ py_repr (elements missing_cells)))).

Definition _json_to_markdown (table_data : TableData.t) : string :=
  match TableData.header table_data with
  | [] => ""
  | _ :: _ => md_table table_data
  end.

(** [{f"{pk},{col}": strategies for pk, cols in ... for col, strategies in ...}] *)
Definition flat_assignments (data : Py.odict (Py.odict (list string)))
  : gmap string (list string) :=
  dict_of_items
    (mjoin ((λ '(pk, cols), (λ '(col, strategies), (cell_key pk col, strategies)) <$> cols) <$> data)).

Definition strategy_defs_str : string :=
  Py.join Py.nl
    (imap (λ i definition, pretty (i + 1) +:+ ". " +:+ definition)
       (Py.od_values SHORT_STRATEGY_DEFINITIONS)).

Definition pk_display (pk_raw : pk_spec) : string :=
  match pk_raw with
  | PkNames l => "[" +:+ Py.join ", " l +:+ "] (composite key)"
  | PkName s => s
  end.

(** The retry loop of [assign_strategies]: [n] attempts left, [attempt]
    the loop variable. *)
Fixpoint assign_loop (table_data : TableData.t) (n attempt : nat)
    (messages : list message) : M StrategyAssignment.t :=
  match n with
  | 0 => raise (RuntimeError "Failed to assign strategies after max retries")
  | S n' =>
      let* r :=
        try_except
          (let* response := call_llm messages in
           let* data := lift (parse_strategy_response response) in
           let assignment := StrategyAssignment.Build (flat_assignments data) in
           let* error_msg := lift (_validate_strategy_assignment assignment table_data) in
           if negb (Py.truthy error_msg) then ret (inl assignment)
           else
             logger WARNING ("Strategy assignment validation failed (Attempt "
                             +:+ pretty (attempt + 1) +:+ "): " +:+ error_msg);;
             ret (inr (messages ++
               [Message "assistant" response;
                Message "user" ("Error: " +:+ error_msg
                                +:+ ". Please assign strategies to all missing cells.")])))
          (λ e,
             logger ERROR ("Failed to assign strategies (Attempt "
                           +:+ pretty (attempt + 1) +:+ ")");;
             ret (inr messages)) in
      match r with
      | inl assignment => ret assignment
      | inr messages' => assign_loop table_data n' (S attempt) messages'
      end
  end.

Definition assign_strategies (table_data : TableData.t) : M StrategyAssignment.t :=
  if negb (Config.ENABLE_STRATEGY_ASSIGNMENT config) then
    logger INFO "Strategy assignment is disabled. Returning empty strategies.";;
    let* '(header, primary_key, pk) := lift (_parse_table_header table_data) in
    let* expected_cells := lift (_get_nonempty_cells table_data header primary_key pk) in
    ret (StrategyAssignment.Build (gset_to_gmap [] expected_cells))
  else
    let markdown_table := _json_to_markdown table_data in
    let prompt :=
      prompts_format "STRATEGY_ASSIGNMENT_PROMPT"
        [("markdown_table", markdown_table);
         ("primary_key", pk_display (TableData.primary_key table_data));
         ("strategy_definitions", strategy_defs_str)] in
    let messages :=
      [Message "system" (prompts_const "STRATEGY_ASSIGNMENT_SYSTEM");
       Message "user" prompt] in
    assign_loop table_data (Config.PLAN_MAX_RETRIES config) 0 messages.

(** *** Step 2: document plan *)

Definition planned_facts (plan : DocumentPlan.t) : list string :=
  mjoin (SectionPlan.facts <$> DocumentPlan.sections plan).

(** [[f for f, c in counts.items() if c > 1]] *)
Definition duplicates (planned : list string) : list string :=
  fst <$> filter (λ fc, 1 < fc.2) (Py.Counter planned).

Definition _validate_document_plan (plan : DocumentPlan.t) (facts : list string)
  : string :=
  let planned := planned_facts plan in
  let planned_set : gset string := list_to_set planned in
  let expected_set : gset string := list_to_set facts in
  let missing := expected_set ∖ planned_set in
  let dups := duplicates planned in
  let error_message := "" in
  let error_message :=
    if decide (missing = ∅) then error_message
    else error_message +:+
      "Validation Error: The following facts are missing from the document plan and were not assigned to any section:"
      +:+ Py.nl +:+ Py.nl +:+ py_repr (elements missing) +:+ Py.nl +:+ Py.nl
      +:+ "Please add them to sections." in
  let error_message :=
    match dups with
    | [] => error_message
    | _ :: _ =>
        (if Py.truthy error_message then error_message +:+ Py.nl +:+ Py.nl
         else error_message)
        +:+ "Validation Error: The following facts appear multiple times in the document plan:"
        +:+ Py.nl +:+ Py.nl +:+ py_repr dups +:+ Py.nl +:+ Py.nl
        +:+ "Please ensure that each fact is assigned to only one section, remove the duplicates."
    end in
  if Py.truthy error_message then
    error_message +:+ Py.nl +:+ Py.nl
    +:+ "Please revise the document plan to ensure all facts are assigned exactly once. Do not change correctly assigned facts."
    +:+ Py.nl +:+ "Output the a new complete document plan in JSON format."
  else error_message.

(** [fact_id_to_string]: the ids are the positions from 1, as decimal text. *)
Definition fact_id_to_string (facts : list string) : gmap string string :=
  dict_of_items (imap (λ i f, (pretty (i + 1), f)) facts).

(** Fact ids of a generated section replaced by the fact strings; an entry
    that is not an id is kept. *)
Definition convert_ids (ids : gmap string string) (plan : DocumentPlan.t)
  : DocumentPlan.t :=
  DocumentPlan.Build (DocumentPlan.theme plan) (DocumentPlan.genre plan)
    ((λ section,
        SectionPlan.Build (SectionPlan.section_id section) (SectionPlan.title section)
          (SectionPlan.goal section) (SectionPlan.summary section)
          ((λ fid, default fid (ids !! fid)) <$> SectionPlan.facts section))
     <$> DocumentPlan.sections plan).

(** The primary keys of the non-empty rows: computed by [plan_document]
    for a grouping by row that the prompt does not use; what remains of it
    is that it can raise. *)
Definition all_pks (table_data : TableData.t) (pk : pk_index) : result (list string) :=
  rmapM (λ flat_row, row_pk flat_row pk)
    (filter (λ flat_row : list string, flat_row ≠ [])
       ((λ row : list cell, flat <$> row) <$> TableData.data table_data)).

(** One split cell: its sub-facts that are planned facts join its group. *)
Definition add_group (sg_name : string) (sub_facts : Py.odict string)
    (fact_to_groups : Py.odict (list string)) : Py.odict (list string) :=
  foldl (λ ftg sf,
           match Py.od_get sf ftg with
           | Some gs => Py.od_set sf (gs ++ [sg_name]) ftg
           | None => ftg
           end)
    fact_to_groups (Py.od_keys sub_facts).

Definition fact_to_groups (facts : list string)
    (fact_map : Py.odict FactWritingGuidance.t) : Py.odict (list string) :=
  (foldl (λ '(ftg, group_counter) '(_, guid),
            match FactWritingGuidance.sub_facts guid with
            | [] => (ftg, group_counter)
            | sub_facts =>
                (add_group ("Group " +:+ pretty group_counter) sub_facts ftg,
                 group_counter + 1)
            end)
     (foldl (λ d f, Py.od_set f [] d) [] facts, 1) fact_map).1.

Definition facts_list (facts : list string)
    (fact_map : Py.odict FactWritingGuidance.t) : string :=
  let groups := fact_to_groups facts fact_map in
  Py.join Py.nl
    (imap (λ i f,
             let entry := "- [" +:+ pretty (i + 1) +:+ "] " +:+ f in
             match Py.od_get f groups with
             | Some (g :: gs) =>
                 entry +:+ " (Member of " +:+ Py.join ", " (g :: gs) +:+ ")"
             | _ => entry
             end)
       facts).

(** The retry loop of [plan_document]. *)
Fixpoint plan_loop (facts : list string) (n attempt : nat)
    (messages : list message) : M DocumentPlan.t :=
  match n with
  | 0 => raise (RuntimeError "Failed to plan document after max retries")
  | S n' =>
      let* r :=
        try_except
          (let* response := call_llm messages in
           let* data := lift (parse_plan_response response) in
           let plan := convert_ids (fact_id_to_string facts) data in
           let error_msg := _validate_document_plan plan facts in
           if negb (Py.truthy error_msg) then ret (inl plan)
           else
             logger WARNING ("Document plan validation failed (Attempt "
                             +:+ pretty (attempt + 1) +:+ "): " +:+ error_msg);;
             ret (inr (messages ++
               [Message "assistant" response;
                Message "user" ("Error: " +:+ error_msg +:+ ". Fix the plan.")])))
          (λ e,
             logger ERROR ("Failed to plan document (Attempt "
                           +:+ pretty (attempt + 1) +:+ ")");;
             ret (inr messages)) in
      match r with
      | inl plan => ret plan
      | inr messages' => plan_loop facts n' (S attempt) messages'
      end
  end.

Definition plan_messages (facts : list string)
    (fact_map : Py.odict FactWritingGuidance.t) : list message :=
  let '(min_sections, max_sections) := section_bounds (length facts) in
  [Message "system" (prompts_const "DOCUMENT_PLAN_SYSTEM");
   Message "user"
     (prompts_format "DOCUMENT_PLAN_PROMPT"
        [("min_sections", min_sections);
         ("max_sections", max_sections);
         ("dispersion_guidance", dispersion_guidance);
         ("facts_list", facts_list facts fact_map)])].

Definition plan_document (facts : list string) (table_data : TableData.t)
    (fact_map : Py.odict FactWritingGuidance.t) : M DocumentPlan.t :=
  (match fact_map with
   | [] => ret ()
   | _ :: _ =>
       let* '(_, _, pk) := lift (_parse_table_header table_data) in
       let* _ := lift (all_pks table_data pk) in
       ret ()
   end);;
  plan_loop facts (Config.PLAN_MAX_RETRIES config) 0 (plan_messages facts fact_map).

End Planner.
End Planner.

(** ** [refiner_agent.RefinementAgent] *)

Module Refiner.
Section Refiner.
Context `{!Externals} (config : Config.t).

Definition _get_pk_description (pk_value : string) (table_data : TableData.t)
  : string :=
  match TableData.primary_key table_data with
  | PkNames primary_key =>
      let pk_parts := Py.split ", " pk_value in
      if decide (length pk_parts = length primary_key) then
        "the record with "
        +:+ Py.join " and "
              (zip_with (λ col val, col +:+ "='" +:+ val +:+ "'") primary_key pk_parts)
      else "'" +:+ pk_value +:+ "'"
  | PkName _ => "'" +:+ pk_value +:+ "'"
  end.

Definition _parse_table (table_data : TableData.t)
  : result (list string * string * pk_index) :=
  Planner._parse_table_header table_data.

Fixpoint build_rows (header : list string) (pk : pk_index)
    (data : list (list cell)) (lookup : gmap string (gmap string string))
  : result (gmap string (gmap string string)) :=
  match data with
  | [] => Ok lookup
  | row :: data' =>
      let flat_row := flat <$> row in
      match flat_row with
      | [] => build_rows header pk data' lookup
      | _ :: _ =>
          rbind (row_pk flat_row pk) (λ pk_val,
            build_rows header pk data'
              (<[pk_val := dict_of_items (zip header flat_row)]> lookup))
      end
  end.

Definition _build_row_lookup (table_data : TableData.t) (header : list string)
    (primary_key : string) (pk : pk_index)
  : result (gmap string (gmap string string)) :=
  build_rows header pk (TableData.data table_data) ∅.

Definition _json_to_markdown (table_data : TableData.t) : string :=
  md_table table_data.

(** [sorted(header, key=len, reverse=True)]: stable, longest first. *)
Fixpoint insert_by_len (x : string) (l : list string) : list string :=
  match l with
  | [] => [x]
  | y :: l' =>
      if decide (String.length y < String.length x) then x :: y :: l'
      else y :: insert_by_len x l'
  end.

Definition sorted_by_len (l : list string) : list string :=
  foldl (λ acc x, insert_by_len x acc) [] l.

(** The header whose name ends the cell key, the rest being a known
    primary key. *)
Fixpoint match_header (cell_key : string)
    (row_lookup : gmap string (gmap string string)) (hs : list string)
  : option (string * string) :=
  match hs with
  | [] => None
  | h :: hs' =>
      let suffix := "," +:+ h in
      if Py.endswith cell_key suffix then
        let possible_pk := Py.drop_end (String.length suffix) cell_key in
        match row_lookup !! possible_pk with
        | Some _ => Some (possible_pk, h)
        | None => match_header cell_key row_lookup hs'
        end
      else match_header cell_key row_lookup hs'
  end.

Definition check_error_text (errors : list (string * string)) : string :=
  match errors with
  | [] => "Verification failed without specific errors."
  | _ :: _ =>
      Py.join (Py.nl +:+ Py.nl)
        ((λ '(desc, sugg), "Error: " +:+ desc +:+ Py.nl +:+ "Suggestion: " +:+ sugg)
         <$> errors)
  end.

Definition selected_defs (defs : Py.odict string) (strategies : list string) : string :=
  Py.join (Py.nl +:+ Py.nl) (omap (λ s, Py.od_get s defs) strategies).

Definition _verify_cell_guidance (pk attr value : string) (strategies : list string)
    (guidance markdown_table detailed_defs : string) (table_data : TableData.t)
  : M (bool * string) :=
  let short_defs := selected_defs SHORT_STRATEGY_DEFINITIONS strategies in
  let pk_display := _get_pk_description pk table_data in
  let prompt :=
    prompts_format "CELL_GUIDANCE_VERIFY_PROMPT"
      [("markdown_table", markdown_table); ("primary_key", pk_display);
       ("attribute", attr); ("value", value);
       ("strategies", json_dumps strategies);
       ("detailed_guidance", guidance);
       ("strategy_definitions", short_defs)] in
  let messages :=
    [Message "system" (prompts_const "CELL_GUIDANCE_VERIFY_SYSTEM");
     Message "user" prompt] in
  let* response := call_llm messages in
  let* '(ok, errors) := lift (parse_check_response response) in
  if negb ok then ret (false, check_error_text errors) else ret (true, "").

Fixpoint cell_guidance_loop (pk attr value : string) (strategies : list string)
    (markdown_table detailed_defs cache_path : string) (table_data : TableData.t)
    (initial : list message) (n : nat) (messages : list message)
  : M (option string) :=
  match n with
  | 0 => ret None
  | S n' =>
      let* r :=
        try_except
          (let* response := call_llm messages in
           let* guidance := lift (parse_guidance_response response) in
           let* '(ok, error_msg) :=
             _verify_cell_guidance pk attr value strategies guidance
               markdown_table detailed_defs table_data in
           if ok then
             write_json cache_path (FGuidance guidance);;
             ret (inl guidance)
           else
             logger WARNING ("Cell guidance verification failed for "
                             +:+ pk +:+ "," +:+ attr +:+ ", retrying...");;
             ret (inr (messages ++
               [Message "assistant" response;
                Message "user"
                  ("The guidance failed verification." +:+ Py.nl +:+ Py.nl
                   +:+ error_msg +:+ Py.nl +:+ Py.nl
                   +:+ "Please revise based on the suggestions above.")])))
          (λ e,
             logger ERROR ("Failed to generate cell guidance for "
                           +:+ pk +:+ "," +:+ attr);;
             ret (inr initial)) in
      match r with
      | inl guidance => ret (Some guidance)
      | inr messages' =>
          cell_guidance_loop pk attr value strategies markdown_table
            detailed_defs cache_path table_data initial n' messages'
      end
  end.

(** The part of [_generate_cell_guidance] after the cache check. *)
Definition generate_cell_guidance_fresh (pk attr value : string)
    (strategies : list string) (markdown_table cache_path : string)
    (table_data : TableData.t) : M (option string) :=
  match strategies with
  | [] =>
      let pk_desc := _get_pk_description pk table_data in
      let guidance :=
        "Naturally weave into the narrative that the '" +:+ attr +:+ "' for "
        +:+ pk_desc +:+ " is '" +:+ value
        +:+ "'. Avoid merely listing the fact; it should be integrated smoothly into a descriptive sentence or analytical point." in
      write_json cache_path (FGuidance guidance);;
      ret (Some guidance)
  | _ :: _ =>
      let detailed_defs := selected_defs DETAILED_STRATEGY_DEFINITIONS strategies in
      let pk_display := _get_pk_description pk table_data in
      let prompt :=
        prompts_format "CELL_GUIDANCE_PROMPT"
          [("markdown_table", markdown_table); ("primary_key", pk_display);
           ("attribute", attr); ("value", value);
           ("strategies", json_dumps strategies);
           ("detailed_strategy_definitions", detailed_defs)] in
      let messages :=
        [Message "system" (prompts_const "CELL_GUIDANCE_SYSTEM");
         Message "user" prompt] in
      cell_guidance_loop pk attr value strategies markdown_table detailed_defs
        cache_path table_data messages (Config.REFINE_MAX_RETRIES config) messages
  end.

Definition _generate_cell_guidance (pk attr value : string)
    (strategies : list string) (markdown_table cache_dir cache_key : string)
    (table_data : TableData.t) : M (option string) :=
  let cache_path := Py.path_join cache_dir (cache_key +:+ ".json") in
  let fresh :=
    generate_cell_guidance_fresh pk attr value strategies markdown_table
      cache_path table_data in
  let* there := path_exists cache_path in
  if there then
    let* cached :=
      try_except
        (let* data := read_json cache_path in
         let* guidance := lift (as_guidance data) in
         ret (Some guidance))
        (λ e, logger WARNING "Failed to load cell guidance cache";; ret None) in
    match cached with
    | Some guidance => ret (Some guidance)
    | None => fresh
    end
  else fresh.

Definition _verify_fact_guidance (attr value original_guidance original_fact : string)
    (sub_facts : Py.odict string) : M (bool * string) :=
  let prompt :=
    prompts_format "FACT_GUIDANCE_VERIFY_PROMPT"
      [("attribute", attr); ("value", value);
       ("original_guidance", original_guidance);
       ("original_fact", original_fact);
       ("sub_facts_json", json_dumps_dict sub_facts)] in
  let messages :=
    [Message "system" (prompts_const "FACT_GUIDANCE_VERIFY_SYSTEM");
     Message "user" prompt] in
  try_except
    (let* response := call_llm messages in
     let* '(ok, errors) := lift (parse_check_response response) in
     if negb ok then ret (false, check_error_text errors) else ret (true, ""))
    (λ e,
       logger ERROR "Fact guidance verification failed";;
       ret (false, "Verification exception")).

Fixpoint fact_guidance_loop (pk attr value cell_guidance main_fact cache_path : string)
    (initial : list message) (n : nat) (messages : list message)
  : M (option FactWritingGuidance.t) :=
  match n with
  | 0 => ret None
  | S n' =>
      let* r :=
        try_except
          (let* response := call_llm messages in
           let* '(is_split, sub_facts_dict) := lift (parse_fact_response response) in
           if is_split then
             let fact_obj :=
               FactWritingGuidance.Build pk attr main_fact "" sub_facts_dict in
             let* '(ok, error_msg) :=
               _verify_fact_guidance attr value cell_guidance main_fact sub_facts_dict in
             if negb ok then
               logger WARNING ("Fact guidance verification failed for "
                               +:+ pk +:+ "," +:+ attr +:+ ", retrying...");;
               ret (inr (messages ++
                 [Message "assistant" response;
                  Message "user"
                    ("The fact guidance failed verification." +:+ Py.nl +:+ Py.nl
                     +:+ error_msg +:+ Py.nl +:+ Py.nl
                     +:+ "Please revise based on the suggestions above.")]))
             else
               write_json cache_path (FFact fact_obj);;
               ret (inl fact_obj)
           else
             let fact_obj :=
               FactWritingGuidance.Build pk attr main_fact cell_guidance [] in
             write_json cache_path (FFact fact_obj);;
             ret (inl fact_obj))
          (λ e,
             logger ERROR ("Failed to generate fact guidance for "
                           +:+ pk +:+ "," +:+ attr);;
             ret (inr initial)) in
      match r with
      | inl fact_obj => ret (Some fact_obj)
      | inr messages' =>
          fact_guidance_loop pk attr value cell_guidance main_fact cache_path
            initial n' messages'
      end
  end.

Definition has_r_or_d (strategies : list string) : bool :=
  existsb (λ s, Py.startswith s "R" || Py.startswith s "D") strategies.

Definition _generate_fact_guidance (pk attr value cell_guidance : string)
    (strategies : list string) (markdown_table cache_path : string)
    (table_data : TableData.t) : M (option FactWritingGuidance.t) :=
  let pk_desc := _get_pk_description pk table_data in
  let main_fact := "The " +:+ attr +:+ " for " +:+ pk_desc +:+ " is " +:+ value in
  if negb (has_r_or_d strategies) then
    let fact_obj := FactWritingGuidance.Build pk attr main_fact cell_guidance [] in
    write_json cache_path (FFact fact_obj);;
    ret (Some fact_obj)
  else
    let prompt :=
      prompts_format "FACT_GUIDANCE_PROMPT"
        [("primary_key", pk); ("attribute", attr); ("value", value);
         ("guidance", cell_guidance)] in
    let messages :=
      [Message "system" (prompts_const "FACT_GUIDANCE_SYSTEM");
       Message "user" prompt] in
    fact_guidance_loop pk attr value cell_guidance main_fact cache_path
      messages (Config.REFINE_MAX_RETRIES config) messages.

(** The part of [_process_single_cell] after the fact-cache check:
    steps 1a and 1b. *)
Definition process_cell_fresh (pk attr value : string) (strategies : list string)
    (markdown_table cell_cache_dir fact_cache_path cache_key : string)
    (table_data : TableData.t) : M (option FactWritingGuidance.t) :=
  let* cell_guidance :=
    _generate_cell_guidance pk attr value strategies markdown_table
      cell_cache_dir cache_key table_data in
  match cell_guidance with
  | None | Some "" =>
      let error_msg :=
        "Failed to generate cell guidance for " +:+ pk +:+ "," +:+ attr
        +:+ " with strategies " +:+ py_repr strategies +:+ " after all retries." in
      logger ERROR error_msg;;
      raise (RuntimeError error_msg)
  | Some cell_guidance =>
      _generate_fact_guidance pk attr value cell_guidance strategies
        markdown_table fact_cache_path table_data
  end.

Definition _process_single_cell (pk attr : string) (strategies : list string)
    (row_lookup : gmap string (gmap string string))
    (markdown_table cell_cache_dir fact_cache_dir cache_key : string)
    (table_data : TableData.t) : M (option FactWritingGuidance.t) :=
  let* row := lift (of_option (KeyError pk) (row_lookup !! pk)) in
  if decide (row = ∅) then
    logger ERROR ("Row not found for PK: " +:+ pk);;
    ret None
  else
    let* value := lift (of_option (KeyError attr) (row !! attr)) in
    let fact_cache_path := Py.path_join fact_cache_dir (cache_key +:+ ".json") in
    let fresh :=
      process_cell_fresh pk attr value strategies markdown_table cell_cache_dir
        fact_cache_path cache_key table_data in
    let* there := path_exists fact_cache_path in
    if there then
      let* cached :=
        try_except
          (let* data := read_json fact_cache_path in
           let* fact_obj := lift (as_fact data) in
           ret (Some fact_obj))
          (λ e, logger WARNING ("Failed to load fact cache for " +:+ cache_key);;
                ret None) in
      match cached with
      | Some fact_obj => ret (Some fact_obj)
      | None => fresh
      end
    else fresh.

(** The submission loop of [refine_all_cells]. *)
Fixpoint submit_cells (row_lookup : gmap string (gmap string string))
    (markdown_table cell_cache_dir fact_cache_dir : string)
    (table_data : TableData.t) (sorted_headers : list string)
    (items : list (string * list string))
  : M (list (result (option FactWritingGuidance.t))) :=
  match items with
  | [] => ret []
  | (cell_key, strategies) :: items' =>
      let rest :=
        submit_cells row_lookup markdown_table cell_cache_dir fact_cache_dir
          table_data sorted_headers items' in
      let parsed :=
        match match_header cell_key row_lookup sorted_headers with
        | Some pk_attr => Some pk_attr
        | None => Py.rsplit_comma cell_key
        end in
      match parsed with
      | None =>
          logger WARNING ("Skipping malformed cell_key: " +:+ cell_key);;
          rest
      | Some (pk, attr) =>
          let cache_key := safe_filename cell_key in
          let* future :=
            submit (_process_single_cell pk attr strategies row_lookup
                      markdown_table cell_cache_dir fact_cache_dir cache_key
                      table_data) in
          let* futures := rest in
          ret (future :: futures)
      end
  end.

Definition map_key (fact_obj : FactWritingGuidance.t) : string :=
  FactWritingGuidance.primary_key fact_obj +:+ "+"
  +:+ FactWritingGuidance.attribute fact_obj.

(** The collection loop of [refine_all_cells]: [future.result()] re-raises
    what the unit raised. *)
Fixpoint collect_cells (done : list (result (option FactWritingGuidance.t)))
    (fact_list : list FactWritingGuidance.t)
    (fact_map : Py.odict FactWritingGuidance.t)
  : result (list FactWritingGuidance.t * Py.odict FactWritingGuidance.t) :=
  match done with
  | [] => Ok (fact_list, fact_map)
  | future :: done' =>
      rbind future (λ res,
        match res with
        | Some fact_obj =>
            collect_cells done' (fact_list ++ [fact_obj])
              (Py.od_set (map_key fact_obj) fact_obj fact_map)
        | None => collect_cells done' fact_list fact_map
        end)
  end.

Definition refine_all_cells (strategy_assignment : StrategyAssignment.t)
    (table_data : TableData.t) (cache_dir : string)
  : M (list FactWritingGuidance.t * Py.odict FactWritingGuidance.t) :=
  let* '(header, primary_key, pk) := lift (_parse_table table_data) in
  let* row_lookup := lift (_build_row_lookup table_data header primary_key pk) in
  let markdown_table := _json_to_markdown table_data in
  let cell_cache_dir := Py.path_join cache_dir "cell_guidance" in
  let fact_cache_dir := Py.path_join cache_dir "fact_guidance" in
  makedirs cell_cache_dir;;
  makedirs fact_cache_dir;;
  let sorted_headers := sorted_by_len header in
  let* futures :=
    submit_cells row_lookup markdown_table cell_cache_dir fact_cache_dir
      table_data sorted_headers
      (map_to_list (StrategyAssignment.assignments strategy_assignment)) in
  let* done := as_completed futures in
  lift (collect_cells done [] []).

End Refiner.
End Refiner.

(** ** Fact lookup shared by the writer and the verifier

    [fact_lookup]: every fact statement and every sub-fact statement mapped
    to the fact object it comes from; later objects overwrite earlier ones. *)
Definition fact_lookup (fact_map : Py.odict FactWritingGuidance.t)
  : gmap string FactWritingGuidance.t :=
  foldl (λ lookup fact_obj,
           foldl (λ lookup sub_fact, <[sub_fact := fact_obj]> lookup)
             (<[FactWritingGuidance.fact fact_obj := fact_obj]> lookup)
             (Py.od_keys (FactWritingGuidance.sub_facts fact_obj)))
    ∅ (Py.od_values fact_map).

(** ** [writer_agent.WriterAgent] *)

Module Writer.
Section Writer.
Context `{!Externals}.

Definition entry (fact guidance : string) : string :=
  "- **Fact:** " +:+ fact +:+ Py.nl +:+ "  **Guidance:** " +:+ guidance.

(** What [write_section] appends to [facts_with_guidance] for one fact of
    the section plan. *)
Definition write_entries (lookup : gmap string FactWritingGuidance.t)
    (fact_str : string) : list string :=
  match lookup !! fact_str with
  | None => []
  | Some fact_obj =>
      match Py.od_get fact_str (FactWritingGuidance.sub_facts fact_obj) with
      | Some sub_guidance => [entry fact_str sub_guidance]
      | None =>
          match FactWritingGuidance.sub_facts fact_obj with
          | _ :: _ =>
              (λ '(sub_fact, sub_guidance), entry sub_fact sub_guidance)
              <$> FactWritingGuidance.sub_facts fact_obj
          | [] => [entry fact_str (FactWritingGuidance.writing_guidance fact_obj)]
          end
      end
  end.

Definition write_facts_with_guidance (section_plan : SectionPlan.t)
    (fact_map : Py.odict FactWritingGuidance.t) : list string :=
  let lookup := fact_lookup fact_map in
  mjoin (write_entries lookup <$> SectionPlan.facts section_plan).

Definition write_section (section_plan : SectionPlan.t)
    (fact_map : Py.odict FactWritingGuidance.t) (theme genre : string)
    (previous_summary : option string) : M string :=
  let facts_with_guidance := write_facts_with_guidance section_plan fact_map in
  let facts_text :=
    match facts_with_guidance with
    | [] => "No specific facts assigned."
    | _ :: _ => Py.join Py.nl facts_with_guidance
    end in
  let prev_summary_text :=
    match previous_summary with
    | Some (String _ _ as s) => s
    | _ => "This is the first section of the document."
    end in
  let prompt :=
    prompts_format "WRITE_SECTION_PROMPT"
      [("theme", theme); ("genre", genre);
       ("previous_summary", prev_summary_text);
       ("title", SectionPlan.title section_plan);
       ("current_summary", SectionPlan.summary section_plan);
       ("content_goal", SectionPlan.goal section_plan);
       ("facts_with_guidance", facts_text)] in
  let messages :=
    [Message "system" (prompts_const "WRITE_SECTION_SYSTEM");
     Message "user" prompt] in
  try_except (call_llm messages)
    (λ e,
       logger ERROR ("Failed to write section "
                     +:+ pretty (SectionPlan.section_id section_plan));;
       ret "").

(** What [repair_section] appends to [facts_with_guidance] for one fact of
    the section plan. *)
Definition repair_entries (lookup : gmap string FactWritingGuidance.t)
    (fact_str : string) : list string :=
  match lookup !! fact_str with
  | None => []
  | Some fact_obj =>
      match Py.od_get fact_str (FactWritingGuidance.sub_facts fact_obj) with
      | Some sub_guidance => [entry fact_str sub_guidance]
      | None =>
          entry fact_str (FactWritingGuidance.writing_guidance fact_obj)
          :: ((λ '(sub_fact, sub_guidance), entry sub_fact sub_guidance)
              <$> FactWritingGuidance.sub_facts fact_obj)
      end
  end.

Definition repair_facts_with_guidance (section_plan : SectionPlan.t)
    (fact_map : Py.odict FactWritingGuidance.t) : list string :=
  let lookup := fact_lookup fact_map in
  mjoin (repair_entries lookup <$> SectionPlan.facts section_plan).

(** [f"- {e['description']}: {e['suggestion']}"] *)
Definition error_line (e : Py.odict string) : result string :=
  rbind (of_option (KeyError "description") (Py.od_get "description" e)) (λ d,
  rbind (of_option (KeyError "suggestion") (Py.od_get "suggestion" e)) (λ s,
    Ok ("- " +:+ d +:+ ": " +:+ s))).

Definition repair_section (original_content : string) (section_plan : SectionPlan.t)
    (fact_map : Py.odict FactWritingGuidance.t) (errors : list (Py.odict string))
  : M string :=
  let facts_text := Py.join Py.nl (repair_facts_with_guidance section_plan fact_map) in
  let* error_lines := lift (rmapM error_line errors) in
  let errors_text := Py.join Py.nl error_lines in
  let prompt :=
    prompts_format "REPAIR_SECTION_PROMPT"
      [("content", original_content); ("errors", errors_text);
       ("facts_with_guidance", facts_text)] in
  let messages :=
    [Message "system" (prompts_const "REPAIR_SECTION_SYSTEM");
     Message "user" prompt] in
  try_except (call_llm messages)
    (λ e, logger ERROR "Failed to repair section";; ret original_content).

End Writer.
End Writer.

(** ** [verifier_agent.VerifierAgent] *)

Module Verifier.
Section Verifier.
Context `{!Externals}.

Definition entry (fact_obj : FactWritingGuidance.t) (fact guidance : string) : string :=
  "- **Cell:** " +:+ FactWritingGuidance.primary_key fact_obj +:+ "+"
  +:+ FactWritingGuidance.attribute fact_obj +:+ Py.nl
  +:+ "  **Fact:** " +:+ fact +:+ Py.nl
  +:+ "  **Guidance:** " +:+ guidance.

Definition verify_entries (lookup : gmap string FactWritingGuidance.t)
    (fact_str : string) : list string :=
  match lookup !! fact_str with
  | None => []
  | Some fact_obj =>
      match Py.od_get fact_str (FactWritingGuidance.sub_facts fact_obj) with
      | Some sub_guidance => [entry fact_obj fact_str sub_guidance]
      | None =>
          match FactWritingGuidance.sub_facts fact_obj with
          | _ :: _ =>
              (λ '(sub_fact, sub_guidance), entry fact_obj sub_fact sub_guidance)
              <$> FactWritingGuidance.sub_facts fact_obj
          | [] => [entry fact_obj fact_str (FactWritingGuidance.writing_guidance fact_obj)]
          end
      end
  end.

Definition verify_facts_with_guidance (section_plan : SectionPlan.t)
    (fact_map : Py.odict FactWritingGuidance.t) : list string :=
  let lookup := fact_lookup fact_map in
  mjoin (verify_entries lookup <$> SectionPlan.facts section_plan).

Definition _json_to_markdown (table_data : TableData.t) : string :=
  match TableData.header table_data with
  | [] => ""
  | _ :: _ => md_table table_data
  end.

Definition verify_section (content : string) (section_plan : SectionPlan.t)
    (fact_map : Py.odict FactWritingGuidance.t) (table_data : TableData.t)
    (strategy_assignment : StrategyAssignment.t) : M VerificationResult.t :=
  let markdown_table := _json_to_markdown table_data in
  let facts_text := Py.join Py.nl (verify_facts_with_guidance section_plan fact_map) in
  let prompt :=
    prompts_format "VERIFY_SECTION_PROMPT"
      [("markdown_table", markdown_table);
       ("title", SectionPlan.title section_plan);
       ("content", content);
       ("facts_with_guidance", facts_text)] in
  let messages :=
    [Message "system" (prompts_const "VERIFY_SECTION_SYSTEM");
     Message "user" prompt] in
  try_except
    (let* response := call_llm messages in
     lift (parse_verification_response response))
    (λ e,
       logger ERROR "Section verification failed";;
       ret (VerificationResult.Build false
              [[("description", "Verification error"); ("suggestion", "Retry")]])).

End Verifier.
End Verifier.

(** ** [main.py] *)

Module Main.
Section Main.
Context `{!Externals} (config : Config.t).

Definition section_cache_path (cache_dir : string) (section_id : Z) : string :=
  Py.path_join cache_dir ("section_" +:+ pretty section_id +:+ ".json").

(** The part of [write_section_task] after the cache check. *)
Definition write_section_fresh (section_plan : SectionPlan.t)
    (fact_map : Py.odict FactWritingGuidance.t) (theme genre : string)
    (previous_summary : option string) (cache_path task_name : string)
  : M DocSection.t :=
  let* content :=
    Writer.write_section section_plan fact_map theme genre previous_summary in
  let section :=
    DocSection.Build (SectionPlan.section_id section_plan)
      (SectionPlan.title section_plan) content false in
  write_json cache_path (FSection section);;
  logger DEBUG ("[" +:+ task_name +:+ "] Wrote section "
                +:+ pretty (SectionPlan.section_id section_plan));;
  ret section.

Definition write_section_task (section_plan : SectionPlan.t)
    (fact_map : Py.odict FactWritingGuidance.t) (theme genre : string)
    (previous_summary : option string) (cache_path task_name : string)
  : M DocSection.t :=
  let fresh :=
    write_section_fresh section_plan fact_map theme genre previous_summary
      cache_path task_name in
  let* there := path_exists cache_path in
  if there then
    let* cached :=
      try_except
        (let* data := read_json cache_path in
         let* section := lift (as_section data) in
         logger DEBUG ("[" +:+ task_name +:+ "] Using cached section "
                       +:+ pretty (SectionPlan.section_id section_plan));;
         ret (Some section))
        (λ e, logger WARNING "Failed to load section cache";; ret None) in
    match cached with
    | Some section => ret section
    | None => fresh
    end
  else fresh.

Definition set_verified (v : bool) (s : DocSection.t) : DocSection.t :=
  DocSection.Build (DocSection.section_id s) (DocSection.title s)
    (DocSection.content s) v.

Definition set_content (c : string) (s : DocSection.t) : DocSection.t :=
  DocSection.Build (DocSection.section_id s) (DocSection.title s) c
    (DocSection.verified s).

(** [section] is the reference of the object the task works on. *)
Definition verify_repair_section_task (section : nat) (section_plan : SectionPlan.t)
    (fact_map : Py.odict FactWritingGuidance.t) (table_data : TableData.t)
    (strategy_assignment : StrategyAssignment.t) (cache_path : string) : M nat :=
  let* s := get_obj section in
  let* verification :=
    Verifier.verify_section (DocSection.content s) section_plan fact_map
      table_data strategy_assignment in
  if VerificationResult.ok verification then
    update_obj section (set_verified true);;
    let* s := get_obj section in
    write_json cache_path (FSection s);;
    ret section
  else
    let* s := get_obj section in
    let* repaired_content :=
      Writer.repair_section (DocSection.content s) section_plan fact_map
        (VerificationResult.errors verification) in
    update_obj section (set_content repaired_content);;
    update_obj section (set_verified false);;
    let* s := get_obj section in
    write_json cache_path (FSection s);;
    ret section.

(** *** Step 0: strategy assignment *)

Definition generate_strategy (task_name strategy_cache_path : string)
    (table_data : TableData.t) : M StrategyAssignment.t :=
  let* strategy_assignment := Planner.assign_strategies config table_data in
  write_json strategy_cache_path (FStrategy strategy_assignment);;
  logger DEBUG ("[" +:+ task_name +:+ "] Assigned strategies to "
                +:+ pretty (size (StrategyAssignment.assignments strategy_assignment))
                +:+ " cells");;
  ret strategy_assignment.

Definition strategy_stage (task_name output_dir : string) (table_data : TableData.t)
  : M StrategyAssignment.t :=
  let strategy_cache_path := Py.path_join output_dir "strategy_assignment.json" in
  let* there := path_exists strategy_cache_path in
  if there then
    try_except
      (let* data := read_json strategy_cache_path in
       let* strategy_assignment := lift (as_strategy data) in
       logger DEBUG ("[" +:+ task_name +:+ "] Loaded strategy assignment from cache");;
       ret strategy_assignment)
      (λ e,
         logger WARNING ("[" +:+ task_name
                         +:+ "] Failed to load strategy cache, regenerating...");;
         generate_strategy task_name strategy_cache_path table_data)
  else generate_strategy task_name strategy_cache_path table_data.

(** *** Step 1: writing guidance *)

Definition build_fact_map (fact_list : list FactWritingGuidance.t)
  : Py.odict FactWritingGuidance.t :=
  foldl (λ fact_map fact_obj, Py.od_set (Refiner.map_key fact_obj) fact_obj fact_map)
    [] fact_list.

Definition generate_guidance (task_name fact_guidance_cache_path cache_dir : string)
    (strategy_assignment : StrategyAssignment.t) (table_data : TableData.t)
  : M (list FactWritingGuidance.t * Py.odict FactWritingGuidance.t) :=
  makedirs cache_dir;;
  let* '(fact_list, fact_map) :=
    Refiner.refine_all_cells config strategy_assignment table_data cache_dir in
  write_json fact_guidance_cache_path (FFactList fact_list);;
  logger DEBUG ("[" +:+ task_name +:+ "] Generated "
                +:+ pretty (length fact_list) +:+ " facts");;
  ret (fact_list, fact_map).

Definition guidance_stage (task_name output_dir cache_dir : string)
    (strategy_assignment : StrategyAssignment.t) (table_data : TableData.t)
  : M (list FactWritingGuidance.t * Py.odict FactWritingGuidance.t) :=
  let fact_guidance_cache_path := Py.path_join output_dir "fact_guidance.json" in
  let* there := path_exists fact_guidance_cache_path in
  if there then
    try_except
      (let* data := read_json fact_guidance_cache_path in
       let* fact_list := lift (as_fact_list data) in
       let fact_map := build_fact_map fact_list in
       logger DEBUG ("[" +:+ task_name +:+ "] Loaded fact guidance from cache");;
       ret (fact_list, fact_map))
      (λ e,
         logger WARNING ("[" +:+ task_name
                         +:+ "] Failed to load fact guidance cache, regenerating...");;
         generate_guidance task_name fact_guidance_cache_path cache_dir
           strategy_assignment table_data)
  else
    generate_guidance task_name fact_guidance_cache_path cache_dir
      strategy_assignment table_data.

(** *** Step 2: document plan *)

(** The facts given to the planner: the sub-facts of a split fact, the
    fact itself otherwise. *)
Definition fact_strings (fact_list : list FactWritingGuidance.t) : list string :=
  mjoin ((λ f, match FactWritingGuidance.sub_facts f with
               | [] => [FactWritingGuidance.fact f]
               | _ :: _ => Py.od_keys (FactWritingGuidance.sub_facts f)
               end) <$> fact_list).

Definition generate_plan (task_name document_plan_cache_path : string)
    (fact_list : list FactWritingGuidance.t)
    (fact_map : Py.odict FactWritingGuidance.t) (table_data : TableData.t)
  : M DocumentPlan.t :=
  let* document_plan :=
    Planner.plan_document config (fact_strings fact_list) table_data fact_map in
  write_json document_plan_cache_path (FPlan document_plan);;
  logger DEBUG ("[" +:+ task_name +:+ "] Planned "
                +:+ pretty (length (DocumentPlan.sections document_plan))
                +:+ " sections");;
  ret document_plan.

Definition plan_stage (task_name output_dir : string)
    (fact_list : list FactWritingGuidance.t)
    (fact_map : Py.odict FactWritingGuidance.t) (table_data : TableData.t)
  : M DocumentPlan.t :=
  let document_plan_cache_path := Py.path_join output_dir "document_plan.json" in
  let* there := path_exists document_plan_cache_path in
  if there then
    try_except
      (let* data := read_json document_plan_cache_path in
       let* document_plan := lift (as_plan data) in
       logger DEBUG ("[" +:+ task_name +:+ "] Loaded document plan from cache");;
       ret document_plan)
      (λ e,
         logger WARNING ("[" +:+ task_name
                         +:+ "] Failed to load document plan cache, regenerating...");;
         generate_plan task_name document_plan_cache_path fact_list fact_map table_data)
  else generate_plan task_name document_plan_cache_path fact_list fact_map table_data.

(** *** Step 3: write the sections *)

(** The submission loop: [i] is the position of the first plan of
    [plans], [prev] the summary of the plan before it. *)
Fixpoint submit_sections (document_plan : DocumentPlan.t)
    (fact_map : Py.odict FactWritingGuidance.t) (cache_dir task_name : string)
    (i : nat) (prev : option string) (plans : list SectionPlan.t)
  : M (list (nat * result DocSection.t)) :=
  match plans with
  | [] => ret []
  | section_plan :: plans' =>
      let cache_path :=
        section_cache_path cache_dir (SectionPlan.section_id section_plan) in
      let* future :=
        submit (write_section_task section_plan fact_map
                  (DocumentPlan.theme document_plan)
                  (DocumentPlan.genre document_plan) prev cache_path task_name) in
      let* futures :=
        submit_sections document_plan fact_map cache_dir task_name (S i)
          (Some (SectionPlan.summary section_plan)) plans' in
      ret ((i, future) :: futures)
  end.

(** The collection loop: a section that failed is logged and its slot
    stays [None]. *)
Fixpoint collect_sections (task_name : string)
    (done : list (nat * result DocSection.t))
    (sections : list (option DocSection.t)) : M (list (option DocSection.t)) :=
  match done with
  | [] => ret sections
  | (idx, future) :: done' =>
      match future with
      | Ok section => collect_sections task_name done' (<[idx := Some section]> sections)
      | Raise e =>
          logger ERROR ("[" +:+ task_name +:+ "] Error writing section");;
          collect_sections task_name done' sections
      end
  end.

(** The [Document] of the written sections, as the references of their
    objects. *)
Definition write_stage (task_name cache_dir : string) (document_plan : DocumentPlan.t)
    (fact_map : Py.odict FactWritingGuidance.t) : M (list nat) :=
  makedirs cache_dir;;
  let plans := DocumentPlan.sections document_plan in
  let* futures :=
    submit_sections document_plan fact_map cache_dir task_name 0 None plans in
  let* done := as_completed futures in
  let* sections := collect_sections task_name done (replicate (length plans) None) in
  let sections := omap id sections in
  let* document := mapM alloc sections in
  logger INFO ("[" +:+ task_name +:+ "] Wrote " +:+ pretty (length sections)
               +:+ " sections");;
  ret document.

(** *** Step 4: verify and repair *)

Definition find_plan (document_plan : DocumentPlan.t) (section_id : Z)
  : option SectionPlan.t :=
  list_find (λ sp, SectionPlan.section_id sp = section_id)
    (DocumentPlan.sections document_plan) ≫= λ x, Some x.2.

Fixpoint submit_repairs (document_plan : DocumentPlan.t)
    (fact_map : Py.odict FactWritingGuidance.t) (table_data : TableData.t)
    (strategy_assignment : StrategyAssignment.t) (cache_dir : string)
    (unverified : list nat) : M (list (result nat)) :=
  match unverified with
  | [] => ret []
  | section :: unverified' =>
      let rest :=
        submit_repairs document_plan fact_map table_data strategy_assignment
          cache_dir unverified' in
      let* s := get_obj section in
      match find_plan document_plan (DocSection.section_id s) with
      | Some section_plan =>
          let cache_path := section_cache_path cache_dir (DocSection.section_id s) in
          let* future :=
            submit (verify_repair_section_task section section_plan fact_map
                      table_data strategy_assignment cache_path) in
          let* futures := rest in
          ret (future :: futures)
      | None => rest
      end
  end.

(** The first position of [document] whose object has the section id of
    the object [updated]. *)
Definition position_of (h : list DocSection.t) (document : list nat) (updated : nat)
  : option nat :=
  fst <$> list_find
    (λ r, DocSection.section_id (h !!! r) = DocSection.section_id (h !!! updated))
    document.

Fixpoint update_sections (done : list (result nat)) (document : list nat)
  : M (list nat) :=
  match done with
  | [] => ret document
  | future :: done' =>
      let* updated_section := lift future in
      let* h := get_heap in
      match position_of h document updated_section with
      | Some idx => update_sections done' (<[idx := updated_section]> document)
      | None => update_sections done' document
      end
  end.

Fixpoint verify_rounds (task_name cache_dir : string) (document_plan : DocumentPlan.t)
    (fact_map : Py.odict FactWritingGuidance.t) (table_data : TableData.t)
    (strategy_assignment : StrategyAssignment.t) (n attempt : nat)
    (document : list nat) : M (list nat) :=
  match n with
  | 0 => ret document
  | S n' =>
      let* h := get_heap in
      let unverified := filter (λ r, DocSection.verified (h !!! r) = false) document in
      match unverified with
      | [] => ret document
      | _ :: _ =>
          logger DEBUG ("[" +:+ task_name +:+ "] Verify/Repair attempt "
                        +:+ pretty (attempt + 1));;
          let* futures :=
            submit_repairs document_plan fact_map table_data strategy_assignment
              cache_dir unverified in
          let* done := as_completed futures in
          let* document' := update_sections done document in
          verify_rounds task_name cache_dir document_plan fact_map table_data
            strategy_assignment n' (S attempt) document'
      end
  end.

(** *** Final document *)

Definition final_chunk (s : DocSection.t) : string :=
  DocSection.content s +:+ Py.nl +:+ Py.nl.

Definition synthesize (task_name final_doc_path cache_dir : string)
    (document : list nat) : M unit :=
  let* h := get_heap in
  let sections := (λ r, h !!! r) <$> document in
  let verified_count := length (filter (λ s, DocSection.verified s = true) sections) in
  logger INFO ("[" +:+ task_name +:+ "] Verified " +:+ pretty verified_count
               +:+ "/" +:+ pretty (length sections) +:+ " sections");;
  if decide (verified_count ≠ length sections) then
    logger ERROR ("[" +:+ task_name
                  +:+ "] Not all sections verified, skipping final document synthesis")
  else
    logger INFO ("[" +:+ task_name +:+ "] Synthesizing final document...");;
    open_w final_doc_path;;
    mapM (λ section, f_write final_doc_path (final_chunk section)) sections;;
    try_except
      (rmtree cache_dir;;
       logger DEBUG ("[" +:+ task_name +:+ "] Cleaned up cache directory"))
      (λ e, logger WARNING ("[" +:+ task_name +:+ "] Failed to clean cache dir"));;
    logger INFO ("[" +:+ task_name +:+ "] Task completed successfully!").

Definition task_name_of (file_path : string) : string :=
  Py.replace ".json" "" (Py.basename file_path).

Definition output_dir_of (file_path : string) : string :=
  Py.path_join (Config.OUTPUT_PATH config) (task_name_of file_path).

Definition cache_dir_of (file_path : string) : string :=
  Py.path_join (output_dir_of file_path) "cache".

Definition final_doc_path_of (file_path : string) : string :=
  Py.path_join (output_dir_of file_path) "final_document.md".

(** Steps 0 to 4 of a job that is not complete yet: the document handed
    to the synthesis. *)
Definition run_steps (file_path : string) : M (list nat) :=
  let task_name := task_name_of file_path in
  let output_dir := output_dir_of file_path in
  let cache_dir := cache_dir_of file_path in
  let* data := read_json file_path in
  let* table_data := lift (as_table data) in
  let table_copy_path := Py.path_join output_dir "raw_table.json" in
  let* copied := path_exists table_copy_path in
  (if copied then ret ()
   else
     copy2 file_path table_copy_path;;
     logger DEBUG ("[" +:+ task_name +:+ "] Copied table file to output directory"));;
  logger INFO ("[" +:+ task_name +:+ "] Step 0: Assigning strategies...");;
  let* strategy_assignment := strategy_stage task_name output_dir table_data in
  logger INFO ("[" +:+ task_name +:+ "] Step 1: Generating writing guidance...");;
  let* '(fact_list, fact_map) :=
    guidance_stage task_name output_dir cache_dir strategy_assignment table_data in
  logger INFO ("[" +:+ task_name +:+ "] Step 2: Planning document structure...");;
  let* document_plan := plan_stage task_name output_dir fact_list fact_map table_data in
  logger INFO ("[" +:+ task_name +:+ "] Step 3: Writing sections...");;
  let* document := write_stage task_name cache_dir document_plan fact_map in
  logger INFO ("[" +:+ task_name +:+ "] Step 4: Verifying and repairing sections...");;
  verify_rounds task_name cache_dir document_plan fact_map table_data
    strategy_assignment (Config.VERIFY_AND_REPAIR_MAX_RETRIES config) 0 document.

(** The stages of a job that is not complete yet. *)
Definition run_stages (file_path : string) : M unit :=
  let* document := run_steps file_path in
  synthesize (task_name_of file_path) (final_doc_path_of file_path)
    (cache_dir_of file_path) document.

Definition process_task (file_path : string) : M unit :=
  let task_name := task_name_of file_path in
  let output_dir := output_dir_of file_path in
  let final_doc_path := final_doc_path_of file_path in
  logger INFO ("Starting Task: " +:+ task_name);;
  try_except
    (let* there := path_exists output_dir in
     (if there then ret () else makedirs output_dir);;
     let* complete := path_exists final_doc_path in
     if complete then
       logger INFO ("[" +:+ task_name +:+ "] Task already completed, skipping...")
     else run_stages file_path)
    (λ e, logger ERROR ("[" +:+ task_name +:+ "] Task failed with exception")).

End Main.
End Main.

(** * Example inputs *)

Module Examples.

(** A plain-text stand-in for the generated JSON: sections separated by
  [|], the fact entries of a section by [,]. *)
Definition toy_plan (s : string) : result DocumentPlan.t :=
  Ok (DocumentPlan.Build "theme" "genre"
      (imap (λ i entries,
               SectionPlan.Build (Z.of_nat i) "title" "goal" "summary"
                 (Py.split "," entries))
         (Py.split "|" s))).

(** Cells of an assignment separated by [;], each written [pk/col]. *)
Definition toy_strategies (s : string)
  : result (Py.odict (Py.odict (list string))) :=
  rmapM (λ item,
         match Py.split "/" item with
         | [pk; col] => Ok (pk, [(col, [])])
         | _ => Raise JSONDecodeError
         end)
  (Py.split ";" s).

(** A verdict: [ok], or anything else for a failed check whose single
  defect record is the text itself under the key [description]. *)
Definition toy_verification (s : string) : result VerificationResult.t :=
  if decide (s = "ok") then Ok (VerificationResult.Build true [])
  else Ok (VerificationResult.Build false [[("description", s)]]).

Definition toy : Externals :=
  {| prompts_format := λ name kwargs, name +:+ ":" +:+ Py.join "," (snd <$> kwargs);
   prompts_const := λ name, name;
   py_repr := λ l, "[" +:+ Py.join ", " l +:+ "]";
   json_dumps := λ l, "[" +:+ Py.join ", " l +:+ "]";
   json_dumps_dict := λ d, "{" +:+ Py.join ", " (fst <$> d) +:+ "}";
   DETAILED_STRATEGY_DEFINITIONS := [("T1", "T1 (Format Transformation)")];
   SHORT_STRATEGY_DEFINITIONS := [("T1", "T1: Format Transformation")];
   section_bounds := λ n, (pretty n, pretty (2 * n));
   dispersion_guidance := "sparse";
   parse_strategy_response := toy_strategies;
   parse_plan_response := toy_plan;
   parse_guidance_response := λ s, Ok s;
   parse_check_response := λ s, Ok (bool_decide (s = "ok"), [(s, "revise")]);
   parse_fact_response := λ s, Ok (false, []);
   parse_verification_response := toy_verification |}.

Definition empty_table : TableData.t :=
  TableData.Build [Scalar "id"] (PkName "id") [].

(** A world with the given files and generation outcomes, never
  interrupted, in which every write succeeds. *)
Definition world (files : gmap string file) (tape : list (option string)) : World :=
  MkWorld files ∅ None tape [] [] [] [] [].

Definition section_plan (i : Z) (facts : list string) : SectionPlan.t :=
  SectionPlan.Build i "title" "goal" "summary" facts.

Definition two_sections (a b : list string) : DocumentPlan.t :=
  DocumentPlan.Build "theme" "genre" [section_plan 0 a; section_plan 1 b].



(** Two rows, a single primary key and three populated non-key columns. *)
Definition full_table : TableData.t :=
  TableData.Build [Scalar "id"; Scalar "a"; Scalar "b"; Scalar "c"] (PkName "id")
    [[Scalar "r1"; Scalar "1"; Scalar "2"; Scalar "3"];
     [Scalar "r2"; Scalar "4"; Scalar "5"; Scalar "6"]].




(** A fact split into one sub-fact, and a section plan that names the
    parent fact. *)
Definition split_fact : FactWritingGuidance.t :=
  FactWritingGuidance.Build "r1" "a" "The a for 'r1' is 1" "parent guidance"
    [("a is one", "say it in words")].
Definition split_map : Py.odict FactWritingGuidance.t := [("r1+a", split_fact)].
Definition parent_plan : SectionPlan.t := section_plan 0 ["The a for 'r1' is 1"].

(** An error record without the key [suggestion]. *)
Definition bare_error : Py.odict string := [("description", "the value is missing")].

(** One fact; the generated plan lists its id and a statement of its own. *)
Definition foreign_facts : list string := ["the sky is blue"].
Definition foreign_world : World := world ∅ [Some "1,the grass is red"].
Definition foreign_plan : DocumentPlan.t :=
  DocumentPlan.Build "theme" "genre"
  [section_plan 0 ["the sky is blue"; "the grass is red"]].



(** A section waiting for its verification, cached as it is, and a
    generation that accepts it. *)
Definition pending_section : DocSection.t := DocSection.Build 0 "title" "text" false.
Definition pending_world : World :=
  MkWorld {[ "document/t/cache" := FDir;
             "document/t/cache/section_0.json" := FSection pending_section ]}
    ∅ None [Some "ok"] [] [] [] [] [pending_section].

(** A document of two sections, the first verified, and no generation. *)
Definition verified_section : DocSection.t := DocSection.Build 0 "title" "text" true.
Definition mixed_world : World :=
  MkWorld ∅ ∅ None [] [] [] [] []
    [verified_section; DocSection.Build 1 "title" "draft" false].

(** Three facts and the two plans of the scenario. *)
Definition three_facts : list string := ["1"; "2"; "3"].
Definition good_reply : string := "1,2|3".
Definition duplicate_reply : string := "1,2,3|3".
Definition good_world : World := world ∅ [Some good_reply].
Definition retry_world : World := world ∅ [Some duplicate_reply; Some good_reply].
Definition first_context : list message :=
  [Message "system" "DOCUMENT_PLAN_SYSTEM"; Message "user" "asks for a plan"].

End Examples.

(** * Specification vocabulary *)

(** [preserves R m]: whatever [m] does and however it ends, the world it
    leaves is related by [R] to the world it started in. *)
Definition preserves (R : relation World) {A} (m : M A) : Prop :=
  ∀ w, R w (m w).2.

(** Relations that do not look at a component of the world. *)
Class Insensitive (R : relation World) : Prop := {
  insensitive_log w l : R w (set_log l w);
  insensitive_budget w b : R w (set_budget b w);
  insensitive_schedule w sc : R w (set_schedule sc w);
  insensitive_heap w h : R w (set_heap h w)
}.

Class IgnoresLlm (R : relation World) : Prop :=
  ignores_llm w t c : R w (set_llm t c w).

(** [R] tolerates the file-system update [f]. *)
Definition tolerates (R : relation World) (f : gmap string file → gmap string file)
  : Prop :=
  ∀ w, R w (set_fs f w).

(** The generation calls made between two worlds: [w'] has the calls of
    [w] and, on top of them, [calls] (latest first). *)
Definition calls_since (w w' : World) (calls : list (list message)) : Prop :=
  llm_calls w' = calls ++ llm_calls w.




(** The user message by which [plan_document] answers a rejected plan. *)
Definition plan_feedback (error_msg : string) : string :=
  "Error: " +:+ error_msg +:+ ". Fix the plan.".

(** The validator's message when no fact is missing and the rendering of
    the duplicated facts is [dups]. *)
Definition duplicate_message (dups : string) : string :=
  ("Validation Error: The following facts appear multiple times in the document plan:"
   +:+ Py.nl +:+ Py.nl +:+ dups +:+ Py.nl +:+ Py.nl
   +:+ "Please ensure that each fact is assigned to only one section, remove the duplicates.")
  +:+ Py.nl +:+ Py.nl
  +:+ "Please revise the document plan to ensure all facts are assigned exactly once. Do not change correctly assigned facts."
  +:+ Py.nl +:+ "Output the a new complete document plan in JSON format.".

(** No call is ever forgotten. *)
Definition calls_grow (w w' : World) : Prop := ∃ calls, calls_since w w' calls.

(** ** Units of a fan-out *)




(** ** The commit of a job *)

(** [R] lets any file be written at [path]. *)
Definition writable (R : relation World) (path : string) : Prop :=
  ∀ f, tolerates R (insert path f).

(** Between [w] and [w'] nothing was removed and [path] is as it was. *)
Definition untouched (path : string) (w w' : World) : Prop :=
  removed w' = removed w ∧ fs w' !! path = fs w !! path.

(** The sections of a document, as the heap of [w] has them. *)
Definition sections_of (w : World) (document : list nat) : list DocSection.t :=
  (λ r, heap w !!! r) <$> document.

Definition all_verified (sections : list DocSection.t) : Prop :=
  Forall (λ s, DocSection.verified s = true) sections.

(** What the synthesis writes for [sections]. *)
Definition final_text (sections : list DocSection.t) : string :=
  foldr (λ s text, Main.final_chunk s +:+ text) "" sections.

(** The cache file of the section [r] holds the section as it is. *)
Definition cached (cache_dir : string) (w : World) (r : nat) : Prop :=
  fs w !! Main.section_cache_path cache_dir (DocSection.section_id (heap w !!! r))
  = Some (FSection (heap w !!! r)).

(*EXAMPLES*)

(** * Stages with a cache artifact *)






(** * Properties *)

(** ** Ordered dictionaries and counters *)

Section OdictFacts.
Context {V : Type}.
Implicit Types (d : Py.odict V) (k : string) (v : V).

Lemma od_get_set_eq k v d : Py.od_get k (Py.od_set k v d) = Some v.
Proof.
  induction d as [|[k' v'] d IH]; simpl.
  - by rewrite decide_True.
  - destruct (decide (k = k')) as [->|Hne]; simpl.
    + by rewrite decide_True.
    + by rewrite decide_False.
Qed.

Lemma od_get_set_ne k k' v d :
  k ≠ k' → Py.od_get k (Py.od_set k' v d) = Py.od_get k d.
Proof.
  intros Hne. induction d as [|[k0 v0] d IH]; simpl.
  - by rewrite decide_False.
  - destruct (decide (k' = k0)) as [->|Hne']; simpl.
    + by rewrite !decide_False.
    + destruct (decide (k = k0)); [done|apply IH].
Qed.

Lemma od_get_None k d : Py.od_get k d = None ↔ k ∉ Py.od_keys d.
Proof.
  unfold Py.od_keys. induction d as [|[k' v'] d IH]; simpl.
  - split; [intros _; apply not_elem_of_nil|done].
  - rewrite not_elem_of_cons. destruct (decide (k = k')) as [->|Hne].
    + split; [done|]. intros [? _]. done.
    + rewrite IH. split; [by intros ?|by intros [_ ?]].
Qed.

Lemma od_get_elem k v d : Py.od_get k d = Some v → (k, v) ∈ d.
Proof.
  induction d as [|[k' v'] d IH]; simpl; [done|].
  destruct (decide (k = k')) as [->|Hne].
  - intros [= ->]. apply list_elem_of_here.
  - intros H. apply list_elem_of_further, IH, H.
Qed.

Lemma od_elem_get k v d :
  NoDup (Py.od_keys d) → (k, v) ∈ d → Py.od_get k d = Some v.
Proof.
  unfold Py.od_keys. induction d as [|[k' v'] d IH]; simpl.
  - intros _ H. by apply elem_of_nil in H.
  - intros [Hk Hd]%NoDup_cons [[= -> ->]|Hin]%elem_of_cons.
    + by rewrite decide_True.
    + rewrite decide_False; [by apply IH|].
      intros ->. apply Hk. apply list_elem_of_fmap. by exists (k', v).
Qed.

Lemma od_keys_set k v d :
  Py.od_keys (Py.od_set k v d)
  = if decide (k ∈ Py.od_keys d) then Py.od_keys d else Py.od_keys d ++ [k].
Proof.
  unfold Py.od_keys. induction d as [|[k' v'] d IH].
  - reflexivity.
  - cbn [Py.od_set]. destruct (decide (k = k')) as [->|Hne].
    + rewrite !fmap_cons. simpl.
      rewrite decide_True; [done|apply list_elem_of_here].
    + rewrite !fmap_cons, IH. simpl.
      destruct (decide (k ∈ fst <$> d)) as [Hin|Hnin].
      * rewrite decide_True; [done|by apply list_elem_of_further].
      * rewrite decide_False; [done|].
        rewrite not_elem_of_cons. done.
Qed.

Lemma od_set_NoDup k v d :
  NoDup (Py.od_keys d) → NoDup (Py.od_keys (Py.od_set k v d)).
Proof.
  intros Hd. rewrite od_keys_set. case_decide; [done|].
  apply NoDup_app. split_and!; [done| |apply NoDup_singleton].
  intros x Hx ->%list_elem_of_singleton. done.
Qed.
End OdictFacts.

Lemma count_nil x : Py.count x [] = 0.
Proof. done. Qed.

Lemma count_cons x y l :
  Py.count x (y :: l) = (if decide (y = x) then 1 else 0) + Py.count x l.
Proof.
  unfold Py.count. rewrite filter_cons. by destruct (decide (y = x)).
Qed.

Lemma count_app x l1 l2 : Py.count x (l1 ++ l2) = Py.count x l1 + Py.count x l2.
Proof. unfold Py.count. by rewrite filter_app, length_app. Qed.

Lemma count_zero x l : Py.count x l = 0 ↔ x ∉ l.
Proof.
  induction l as [|y l IH]; [split; [intros _; apply not_elem_of_nil|done]|].
  rewrite count_cons, not_elem_of_cons.
  destruct (decide (y = x)) as [->|Hne]; simpl.
  - split; [lia|]. intros [? _]. done.
  - rewrite IH. split; [by intros ?|by intros [_ ?]].
Qed.

Lemma count_pos x l : 0 < Py.count x l ↔ x ∈ l.
Proof.
  destruct (decide (x ∈ l)) as [Hin|Hnin].
  - split; [done|intros _]. destruct (Py.count x l) eqn:E; [|lia].
    by apply count_zero in E.
  - apply count_zero in Hnin as E. rewrite E. split; [lia|].
    intros Hin. by apply count_zero in E.
Qed.

Lemma NoDup_count l : NoDup l ↔ ∀ x, Py.count x l ≤ 1.
Proof.
  induction l as [|y l IH].
  - split; [intros _ x; rewrite count_nil; lia|intros _; apply NoDup_nil_2].
  - rewrite NoDup_cons, IH. split.
    + intros [Hy Hl] x. rewrite count_cons.
      destruct (decide (y = x)) as [->|]; [|apply Hl].
      apply count_zero in Hy. rewrite Hy. simpl. lia.
    + intros H. split.
      * apply count_zero. specialize (H y). rewrite count_cons, decide_True in H by done.
        lia.
      * intros x. specialize (H x). rewrite count_cons in H. lia.
Qed.

(** The counter after [l] has been counted on top of [c]. *)
Lemma Counter_fold_get k l (c : Py.odict nat) :
  Py.od_get k (foldl (λ c k, Py.od_set k (S (default 0 (Py.od_get k c))) c) c l)
  = if decide (k ∈ l) then Some (default 0 (Py.od_get k c) + Py.count k l)
    else Py.od_get k c.
Proof.
  revert c. induction l as [|y l IH]; intros c; cbn [foldl].
  - rewrite decide_False; [done|apply not_elem_of_nil].
  - rewrite IH, count_cons. destruct (decide (y = k)) as [->|Hne].
    + rewrite od_get_set_eq. simpl.
      rewrite (decide_True (P := k ∈ k :: l)) by apply list_elem_of_here.
      destruct (decide (k ∈ l)) as [Hin|Hnin]; [f_equal; lia|].
      apply count_zero in Hnin as ->. f_equal. lia.
    + rewrite od_get_set_ne by done.
      destruct (decide (k ∈ l)) as [Hin|Hnin].
      * rewrite decide_True by (by apply list_elem_of_further). done.
      * rewrite decide_False; [done|]. rewrite not_elem_of_cons. done.
Qed.

Lemma Counter_get k l :
  Py.od_get k (Py.Counter l) = if decide (k ∈ l) then Some (Py.count k l) else None.
Proof. unfold Py.Counter. by rewrite Counter_fold_get. Qed.

Lemma Counter_NoDup l : NoDup (Py.od_keys (Py.Counter l)).
Proof.
  unfold Py.Counter.
  assert (∀ c : Py.odict nat, NoDup (Py.od_keys c) →
    NoDup (Py.od_keys (foldl (λ c k, Py.od_set k (S (default 0 (Py.od_get k c))) c) c l)))
    as H.
  { induction l as [|y l IH]; intros c Hc; simpl; [done|].
    apply IH. by apply od_set_NoDup. }
  apply H. apply NoDup_nil_2.
Qed.

Lemma Counter_elem k n l : (k, n) ∈ Py.Counter l ↔ k ∈ l ∧ n = Py.count k l.
Proof.
  split.
  - intros H%od_elem_get; [|apply Counter_NoDup].
    rewrite Counter_get in H. case_decide; naive_solver.
  - intros [Hin ->]. apply od_get_elem. rewrite Counter_get. by rewrite decide_True.
Qed.

(** ** Validation of the document plan *)

(** The duplicates reported are exactly the facts planned more than once. *)
Lemma elem_of_duplicates f planned :
  f ∈ Planner.duplicates planned ↔ 1 < Py.count f planned.
Proof.
  unfold Planner.duplicates. rewrite list_elem_of_fmap. split.
  - intros [[k n] [-> [Hn Hin]%list_elem_of_filter]]. simpl in *.
    apply Counter_elem in Hin as [_ ->]. done.
  - intros Hc. exists (f, Py.count f planned). split; [done|].
    apply list_elem_of_filter. split; [done|].
    apply Counter_elem. split; [|done]. apply count_pos. lia.
Qed.

Lemma duplicates_nil planned : Planner.duplicates planned = [] ↔ NoDup planned.
Proof.
  rewrite NoDup_count. split.
  - intros H x. destruct (decide (1 < Py.count x planned)) as [Hc|]; [|lia].
    apply elem_of_duplicates in Hc. rewrite H in Hc. by apply elem_of_nil in Hc.
  - intros H. destruct (Planner.duplicates planned) as [|f l] eqn:E; [done|].
    assert (f ∈ Planner.duplicates planned) as Hf by (rewrite E; apply list_elem_of_here).
    apply elem_of_duplicates in Hf. specialize (H f). lia.
Qed.

Lemma truthy_app s t : Py.truthy (s +:+ t) = Py.truthy s || Py.truthy t.
Proof. by destruct s. Qed.

Lemma truthy_empty s : Py.truthy s = false ↔ s = "".
Proof. by destruct s. Qed.

Lemma truthy_app_l s t : Py.truthy s = true → Py.truthy (s +:+ t) = true.
Proof. intros Hs. by rewrite truthy_app, Hs. Qed.

Lemma truthy_app_r s t : Py.truthy t = true → Py.truthy (s +:+ t) = true.
Proof. intros Ht. rewrite truthy_app, Ht. apply orb_true_r. Qed.

Section PlanValidation.
Context `{!Externals}.

(** The validator accepts a plan exactly when every expected fact is
    planned and no planned fact is planned twice. *)
Lemma validate_document_plan_empty plan facts :
  Planner._validate_document_plan plan facts = "" ↔
  (∀ f, f ∈ facts → f ∈ Planner.planned_facts plan)
  ∧ NoDup (Planner.planned_facts plan).
Proof.
  unfold Planner._validate_document_plan.
  set (planned := Planner.planned_facts plan).
  rewrite <- duplicates_nil.
  assert ((list_to_set facts : gset string) ∖ list_to_set planned = ∅
          ↔ ∀ f, f ∈ facts → f ∈ planned) as Hmiss.
  { split.
    - intros Hm f Hf. destruct (decide (f ∈ planned)) as [|Hn]; [done|].
      assert (f ∈ (list_to_set facts : gset string) ∖ list_to_set planned) as Hin.
      { apply elem_of_difference. rewrite !elem_of_list_to_set. done. }
      rewrite Hm in Hin. by apply not_elem_of_empty in Hin.
    - intros Hm. apply set_eq. intros f.
      rewrite elem_of_difference, !elem_of_list_to_set.
      split; [intros [? ?]; exfalso; auto|intros []%not_elem_of_empty]. }
  assert (∀ m tail : string, Py.truthy m = true →
            (if Py.truthy m then m +:+ tail else m) ≠ "") as Hfinal.
  { intros m tail Hm. rewrite Hm. intros Heq%truthy_empty.
    by rewrite truthy_app_l in Heq. }
  destruct (decide ((list_to_set facts : gset string) ∖ list_to_set planned = ∅))
    as [He|Hne].
  - destruct (Planner.duplicates planned) as [|d ds] eqn:Hd.
    + simpl. split; [intros _|done]. split; [by apply Hmiss|done].
    + split; [|intros [_ [=]]]. intros Hfalse. exfalso.
      revert Hfalse. apply Hfinal. by apply truthy_app_r.
  - split; [|intros [Hall _]; exfalso; by apply Hne, Hmiss].
    intros Hfalse. exfalso. revert Hfalse. apply Hfinal.
    destruct (Planner.duplicates planned); by apply truthy_app_r.
Qed.

End PlanValidation.

(** ** Reasoning about computations *)

Lemma bind_Returned {A B} (m : M A) (k : A → M B) w b w' :
  bind m k w = (Returned b, w') →
  ∃ a w1, m w = (Returned a, w1) ∧ k a w1 = (Returned b, w').
Proof.
  unfold bind. destruct (m w) as [[a|e|] w1]; [|done..]. intros Hk. by exists a, w1.
Qed.

Lemma try_except_Returned {A} (m : M A) (h : exn → M A) w a w' :
  try_except m h w = (Returned a, w') →
  m w = (Returned a, w') ∨ ∃ e w1, m w = (Raised e, w1) ∧ h e w1 = (Returned a, w').
Proof.
  unfold try_except. destruct (m w) as [[a1|e|] w1]; [by left| |done].
  intros Hh. right. by exists e, w1.
Qed.


Lemma logger_eq lvl msg w : logger lvl msg w = (Returned (), set_log ((lvl, msg) :: log w) w).
Proof. done. Qed.

Section PlanLoop.
Context `{!Externals}.

(** A plan that leaves the retry loop has passed the validator. *)
Lemma plan_loop_validated facts n attempt messages w plan w' :
  Planner.plan_loop facts n attempt messages w = (Returned plan, w') →
  Planner._validate_document_plan plan facts = "".
Proof.
  revert attempt messages w. induction n as [|n IH]; intros attempt messages w; [done|].
  cbn [Planner.plan_loop].
  intros (r & w1 & Htry & Hrest)%bind_Returned.
  destruct r as [p|messages'].
  - injection Hrest as -> ->.
    apply try_except_Returned in Htry as [Hbody|(e & w2 & _ & Hh)].
    + apply bind_Returned in Hbody as (response & w2 & _ & Hbody).
      apply bind_Returned in Hbody as (data & w3 & _ & Hbody).
      destruct (Py.truthy (Planner._validate_document_plan _ facts)) eqn:Hv;
        cbn [negb] in Hbody.
      * apply bind_Returned in Hbody as (? & ? & _ & [=]).
      * injection Hbody as <- _. by apply truthy_empty.
    + apply bind_Returned in Hh as (? & ? & _ & [=]).
  - by apply IH in Hrest.
Qed.

Lemma plan_document_validated config facts table_data fact_map w plan w' :
  Planner.plan_document config facts table_data fact_map w = (Returned plan, w') →
  Planner._validate_document_plan plan facts = "".
Proof.
  unfold Planner.plan_document.
  intros (? & w1 & _ & Hloop)%bind_Returned. by apply plan_loop_validated in Hloop.
Qed.

End PlanLoop.

(** ** Invariants of computations *)

Section Preserves.
Context (R : relation World) `{!PreOrder R}.

Lemma preserves_ret {A} (a : A) : preserves R (ret a).
Proof. intros w. simpl. reflexivity. Qed.

Lemma preserves_raise {A} e : preserves R (raise (A := A) e).
Proof. intros w. simpl. reflexivity. Qed.

Lemma preserves_lift {A} (r : result A) : preserves R (lift r).
Proof. destruct r; [apply preserves_ret|apply preserves_raise]. Qed.

Lemma preserves_bind {A B} (m : M A) (k : A → M B) :
  preserves R m → (∀ a, preserves R (k a)) → preserves R (bind m k).
Proof.
  intros Hm Hk w. unfold bind. specialize (Hm w).
  destruct (m w) as [[a|e|] w1]; simpl in *; [|done..].
  etrans; [exact Hm|apply Hk].
Qed.

Lemma preserves_try_except {A} (m : M A) (h : exn → M A) :
  preserves R m → (∀ e, preserves R (h e)) → preserves R (try_except m h).
Proof.
  intros Hm Hh w. unfold try_except. specialize (Hm w).
  destruct (m w) as [[a|e|] w1]; simpl in *; [done| |done].
  etrans; [exact Hm|apply Hh].
Qed.

Lemma preserves_submit {A} (task : M A) : preserves R task → preserves R (submit task).
Proof.
  intros Hm w. unfold submit. specialize (Hm w).
  by destruct (task w) as [[a|e|] w1].
Qed.

Lemma preserves_mapM {A B} (f : A → M B) (l : list A) :
  (∀ x, preserves R (f x)) → preserves R (mapM f l).
Proof.
  intros Hf. induction l as [|x l IH]; cbn [mapM]; [apply preserves_ret|].
  apply preserves_bind; [done|]. intros y.
  apply preserves_bind; [done|]. intros ys. apply preserves_ret.
Qed.

(** What follows the first step of a computation. *)
Lemma after_bind {A B} (m : M A) (k : A → M B) w :
  (∀ a, preserves R (k a)) → R (m w).2 (bind m k w).2.
Proof.
  intros Hk. unfold bind. destruct (m w) as [[a|e|] w1]; simpl; [apply Hk|done..].
Qed.

Lemma after_try_except {A} (m : M A) (h : exn → M A) w :
  (∀ e, preserves R (h e)) → R (m w).2 (try_except m h w).2.
Proof.
  intros Hh. unfold try_except.
  destruct (m w) as [[a|e|] w1]; simpl; [done|apply Hh|done].
Qed.

Context `{!Insensitive R}.

Lemma preserves_logger lvl msg : preserves R (logger lvl msg).
Proof. intros w. apply insensitive_log. Qed.

Lemma preserves_call_llm `{!IgnoresLlm R} messages : preserves R (call_llm messages).
Proof.
  intros w. unfold call_llm.
  destruct (llm_tape w) as [|[text|] tape]; apply ignores_llm.
Qed.

Lemma preserves_path_exists path : preserves R (path_exists path).
Proof. intros w. simpl. reflexivity. Qed.

Lemma preserves_is_faulty path : preserves R (is_faulty path).
Proof. intros w. simpl. reflexivity. Qed.

Lemma preserves_read_json path : preserves R (read_json path).
Proof.
  intros w. unfold read_json. destruct (fs w !! path) as [[]|]; simpl; reflexivity.
Qed.

Lemma preserves_as_completed {A} (futures : list A) : preserves R (as_completed futures).
Proof. intros w. apply insensitive_schedule. Qed.

Lemma preserves_alloc s : preserves R (alloc s).
Proof. intros w. apply insensitive_heap. Qed.

Lemma preserves_get_heap : preserves R get_heap.
Proof. intros w. simpl. reflexivity. Qed.

Lemma preserves_get_obj r : preserves R (get_obj r).
Proof. intros w. simpl. reflexivity. Qed.

Lemma preserves_update_obj r f : preserves R (update_obj r f).
Proof. intros w. apply insensitive_heap. Qed.

Lemma preserves_mutate f : tolerates R f → preserves R (mutate f).
Proof.
  intros Hf w. unfold mutate. destruct (budget w) as [[|n]|]; simpl.
  - reflexivity.
  - etrans; [apply Hf|apply insensitive_budget].
  - apply Hf.
Qed.

Lemma preserves_write_json path f :
  tolerates R (insert path f) → preserves R (write_json path f).
Proof.
  intros Hf. apply preserves_bind; [apply preserves_is_faulty|].
  intros []; [apply preserves_raise|by apply preserves_mutate].
Qed.

Lemma preserves_makedirs path :
  tolerates R (insert path FDir) → preserves R (makedirs path).
Proof.
  intros Hf. apply preserves_bind; [apply preserves_path_exists|].
  intros []; [apply preserves_ret|].
  apply preserves_bind; [apply preserves_is_faulty|].
  intros []; [apply preserves_raise|by apply preserves_mutate].
Qed.

Lemma preserves_copy2 src dst :
  (∀ f, tolerates R (insert dst f)) → preserves R (copy2 src dst).
Proof.
  intros Hf w. unfold copy2.
  destruct (fs w !! src) as [f|] eqn:E; [|simpl; reflexivity].
  destruct f; try (simpl; reflexivity); by apply preserves_write_json.
Qed.

End Preserves.

Create HintDb preserves discriminated.

#[export] Hint Resolve preserves_ret preserves_raise preserves_lift preserves_logger
  preserves_call_llm preserves_path_exists preserves_is_faulty preserves_read_json
  preserves_as_completed preserves_alloc preserves_get_heap preserves_get_obj
  preserves_update_obj preserves_mutate preserves_write_json preserves_makedirs
  preserves_copy2 : preserves.

(** Decompose a computation along its binds, handlers and case analyses;
    the leaves are closed with the [preserves] hints. *)
#[export] Hint Extern 1 (PreOrder _) => typeclasses eauto : preserves.
#[export] Hint Extern 1 (Insensitive _) => typeclasses eauto : preserves.
#[export] Hint Extern 1 (IgnoresLlm _) => typeclasses eauto : preserves.

Ltac preserves_go :=
  repeat first
    [ assumption
    | solve [auto 4 with preserves]
    | apply preserves_bind; [typeclasses eauto .. | | intros ?]
    | apply preserves_try_except; [typeclasses eauto .. | | intros ?]
    | apply preserves_submit; [typeclasses eauto .. | ]
    | apply preserves_mapM; [typeclasses eauto .. | intros ?]
    | match goal with
      | |- preserves _ (match ?x with _ => _ end) => destruct x
      | |- preserves _ (if ?b then _ else _) => destruct b
      end ].

Global Instance calls_grow_preorder : PreOrder calls_grow.
Proof.
  split.
  - intros w. by exists [].
  - intros w1 w2 w3 [c1 H1] [c2 H2]. exists (c2 ++ c1).
    unfold calls_since in *. by rewrite H2, H1, app_assoc.
Qed.

Global Instance calls_grow_insensitive : Insensitive calls_grow.
Proof. split; intros; by exists []. Qed.

Lemma calls_grow_call_llm messages : preserves calls_grow (call_llm messages).
Proof.
  intros w. unfold call_llm.
  destruct (llm_tape w) as [|[text|] tape]; by exists [messages].
Qed.

#[export] Hint Resolve calls_grow_call_llm : preserves.

(** [call_llm] records its context, whatever its outcome. *)
Lemma call_llm_calls messages w : calls_since w (call_llm messages w).2 [messages].
Proof. unfold call_llm. by destruct (llm_tape w) as [|[text|] tape]. Qed.

Section PlanLoopCalls.
Context `{!Externals}.

Lemma plan_loop_calls_grow facts n attempt messages :
  preserves calls_grow (Planner.plan_loop facts n attempt messages).
Proof.
  revert attempt messages. induction n as [|n IH]; intros attempt messages;
    cbn [Planner.plan_loop]; preserves_go.
Qed.

(** With an attempt left, the loop first sends its current context. *)
Lemma plan_loop_first_call facts n attempt messages w :
  ∃ calls,
    calls_since w (Planner.plan_loop facts (S n) attempt messages w).2
      (calls ++ [messages]).
Proof.
  cbn [Planner.plan_loop].
  match goal with |- context [bind (try_except (bind (call_llm messages) ?K) ?H) ?C] =>
    pose proof (after_bind calls_grow (call_llm messages) K w) as H1;
    pose proof (after_try_except calls_grow (bind (call_llm messages) K) H w) as H2;
    pose proof (after_bind calls_grow (try_except (bind (call_llm messages) K) H) C w)
      as H3
  end.
  destruct H1 as [c1 H1]; [intros ?; preserves_go|].
  destruct H2 as [c2 H2]; [intros ?; preserves_go|].
  destruct H3 as [c3 H3].
  { intros [plan|messages']; [preserves_go|apply plan_loop_calls_grow]. }
  pose proof (call_llm_calls messages w) as H0.
  exists (c3 ++ c2 ++ c1). unfold calls_since in *.
  rewrite H3, H2, H1, H0. by rewrite <- !app_assoc.
Qed.

End PlanLoopCalls.

(** ** The planning loop, one attempt at a time *)

Lemma call_llm_returns messages w text tape :
  llm_tape w = Some text :: tape →
  call_llm messages w = (Returned text, set_llm tape (messages :: llm_calls w) w).
Proof. unfold call_llm. by intros ->. Qed.

Lemma call_llm_raises messages w tape :
  llm_tape w = None :: tape →
  call_llm messages w = (Raised GenerationError, set_llm tape (messages :: llm_calls w) w).
Proof. unfold call_llm. by intros ->. Qed.

Section PlanAttempt.
Context `{!Externals}.

(** An accepted reply ends the loop with the converted plan. *)
Lemma plan_loop_accept facts n attempt messages w reply tape data :
  llm_tape w = Some reply :: tape →
  parse_plan_response reply = Ok data →
  let plan := Planner.convert_ids (Planner.fact_id_to_string facts) data in
  Planner._validate_document_plan plan facts = "" →
  Planner.plan_loop facts (S n) attempt messages w
  = (Returned plan, set_llm tape (messages :: llm_calls w) w).
Proof.
  intros Htape Hparse plan Hvalid. cbn [Planner.plan_loop].
  unfold bind at 1, try_except, bind at 1.
  rewrite (call_llm_returns _ _ _ _ Htape).
  unfold bind at 1. rewrite Hparse. cbn [lift ret].
  fold plan. rewrite Hvalid. done.
Qed.

(** A rejected reply and the validator's message are appended to the
    context, and the loop goes on with one attempt less. *)
Lemma plan_loop_reject facts n attempt messages w reply tape data :
  llm_tape w = Some reply :: tape →
  parse_plan_response reply = Ok data →
  let plan := Planner.convert_ids (Planner.fact_id_to_string facts) data in
  let error_msg := Planner._validate_document_plan plan facts in
  error_msg ≠ "" →
  Planner.plan_loop facts (S n) attempt messages w
  = Planner.plan_loop facts n (S attempt)
      (messages ++ [Message "assistant" reply; Message "user" (plan_feedback error_msg)])
      (set_log
         ((WARNING, "Document plan validation failed (Attempt "
                    +:+ pretty (attempt + 1) +:+ "): " +:+ error_msg) :: log w)
         (set_llm tape (messages :: llm_calls w) w)).
Proof.
  intros Htape Hparse plan error_msg Hinvalid. cbn [Planner.plan_loop].
  unfold bind at 1, try_except, bind at 1.
  rewrite (call_llm_returns _ _ _ _ Htape).
  unfold bind at 1. rewrite Hparse. cbn [lift ret].
  fold plan. fold error_msg.
  destruct (Py.truthy error_msg) eqn:Ht; [|by apply truthy_empty in Ht].
  done.
Qed.

Lemma planned_facts_convert ids plan :
  Planner.planned_facts (Planner.convert_ids ids plan)
  = (λ fid, default fid (ids !! fid)) <$> Planner.planned_facts plan.
Proof.
  unfold Planner.planned_facts, Planner.convert_ids. simpl.
  induction (DocumentPlan.sections plan) as [|sp l IH]; [done|].
  rewrite !fmap_cons. cbn [mjoin list_join]. rewrite fmap_app. f_equal. apply IH.
Qed.

End PlanAttempt.

(** ** C1: the partition invariant of accepted plans *)

(** C1 (as amended).  Every plan that [plan_document] returns, after any
    number of validator-driven retries, assigns every input fact exactly
    once over all sections, and assigns no statement twice.  (That a
    statement outside the input can be assigned is shown below.) *)
Theorem plan_document_assigns_each_fact_once `{!Externals} config facts table_data
    fact_map w plan w' :
  Planner.plan_document config facts table_data fact_map w = (Returned plan, w') →
  (∀ f, f ∈ facts → Py.count f (Planner.planned_facts plan) = 1)
  ∧ NoDup (Planner.planned_facts plan).
Proof.
  intros Hrun%plan_document_validated.
  apply validate_document_plan_empty in Hrun as [Hall Hnodup].
  split; [|done]. intros f Hf.
  apply Hall, count_pos in Hf. pose proof (proj1 (NoDup_count _) Hnodup f). lia.
Qed.

Lemma plan_document_assigns_each_fact_once_witness :
  ∃ plan w',
    Planner.plan_document (H := Examples.toy) Config.shipped Examples.three_facts
      Examples.empty_table [] Examples.good_world = (Returned plan, w')
    ∧ (∀ f, f ∈ Examples.three_facts → Py.count f (Planner.planned_facts plan) = 1)
    ∧ NoDup (Planner.planned_facts plan).
Proof.
  eexists _, _. split; [vm_compute; reflexivity|].
  eapply (plan_document_assigns_each_fact_once (H := Examples.toy) Config.shipped
            Examples.three_facts Examples.empty_table [] Examples.good_world).
  vm_compute. reflexivity.
Defined.

(** C1 as stated fails: for the single input fact [the sky is blue], the
    reply that lists the id [1] and the statement [the grass is red] is
    converted, passes the validator at the first attempt and is returned,
    although the second statement is no input fact. *)
Lemma plan_document_accepts_foreign_fact :
  (Planner.plan_document (H := Examples.toy) Config.shipped Examples.foreign_facts
     Examples.empty_table [] Examples.foreign_world).1
  = Returned Examples.foreign_plan
  ∧ Planner.planned_facts Examples.foreign_plan = ["the sky is blue"; "the grass is red"]
  ∧ "the grass is red" ∉ Examples.foreign_facts.
Proof.
  split; [vm_compute; reflexivity|]. split; [reflexivity|].
  intros Hin. apply list_elem_of_singleton in Hin. discriminate.
Qed.

(** ** C8: the scenario with three facts *)

Section ThreeFacts.
Context `{!Externals} (f1 f2 f3 : string) (Hdistinct : NoDup [f1; f2; f3]).

Let facts := [f1; f2; f3].
Let ids := Planner.fact_id_to_string facts.

Lemma three_ids_convert (fids : list string) :
  (λ fid, default fid (ids !! fid)) <$> fids
  = (λ fid, if decide (fid = "1") then f1 else if decide (fid = "2") then f2
            else if decide (fid = "3") then f3 else fid) <$> fids.
Proof.
  apply list_fmap_ext. intros _ fid _. subst ids facts.
  unfold Planner.fact_id_to_string, dict_of_items. cbn [imap foldl fst snd].
  change (pretty (0 + 1)) with "1". change (pretty (1 + 1)) with "2".
  change (pretty (2 + 1)) with "3".
  repeat case_decide; subst; simplify_map_eq; done.
Qed.

Lemma three_distinct : f1 ≠ f2 ∧ f1 ≠ f3 ∧ f2 ≠ f3.
Proof.
  pose proof Hdistinct as Hd.
  apply NoDup_cons in Hd as [H1 H23]. apply NoDup_cons in H23 as [H2 _].
  apply not_elem_of_cons in H1 as [? H1]. apply not_elem_of_cons in H1 as [? _].
  apply not_elem_of_cons in H2 as [? _]. done.
Qed.

Lemma three_duplicates : Planner.duplicates [f1; f2; f3; f3] = [f3].
Proof.
  destruct three_distinct as (H12 & H13 & H23).
  unfold Planner.duplicates, Py.Counter. cbn [foldl Py.od_get Py.od_set].
  repeat first [rewrite decide_True by done | rewrite decide_False by done
               | progress cbn [default foldl Py.od_get Py.od_set] ].
  reflexivity.
Qed.

Lemma three_good_planned (good : DocumentPlan.t) :
  SectionPlan.facts <$> DocumentPlan.sections good = [["1"; "2"]; ["3"]] →
  Planner.planned_facts (Planner.convert_ids ids good) = [f1; f2; f3].
Proof.
  intros Hgood. rewrite planned_facts_convert. unfold Planner.planned_facts.
  rewrite Hgood. cbn [mjoin list_join app]. by rewrite three_ids_convert.
Qed.

Lemma three_dup_planned (dup : DocumentPlan.t) :
  SectionPlan.facts <$> DocumentPlan.sections dup = [["1"; "2"; "3"]; ["3"]] →
  Planner.planned_facts (Planner.convert_ids ids dup) = [f1; f2; f3; f3].
Proof.
  intros Hdup. rewrite planned_facts_convert. unfold Planner.planned_facts.
  rewrite Hdup. cbn [mjoin list_join app]. by rewrite three_ids_convert.
Qed.

Lemma three_good_valid (good : DocumentPlan.t) :
  SectionPlan.facts <$> DocumentPlan.sections good = [["1"; "2"]; ["3"]] →
  Planner._validate_document_plan (Planner.convert_ids ids good) facts = "".
Proof.
  intros Hgood. apply validate_document_plan_empty.
  rewrite (three_good_planned _ Hgood). done.
Qed.

(** The validator's message for the plan with fact 3 in both sections. *)
Lemma three_dup_message (dup : DocumentPlan.t) :
  SectionPlan.facts <$> DocumentPlan.sections dup = [["1"; "2"; "3"]; ["3"]] →
  Planner._validate_document_plan (Planner.convert_ids ids dup) facts
  = duplicate_message (py_repr [f3]).
Proof.
  intros Hdup. unfold Planner._validate_document_plan.
  rewrite (three_dup_planned _ Hdup), three_duplicates.
  rewrite decide_True by (subst facts; set_solver).
  rewrite truthy_app_r by (by apply truthy_app_l). reflexivity.
Qed.

Lemma three_dup_invalid (dup : DocumentPlan.t) :
  SectionPlan.facts <$> DocumentPlan.sections dup = [["1"; "2"; "3"]; ["3"]] →
  Planner._validate_document_plan (Planner.convert_ids ids dup) facts ≠ "".
Proof.
  intros Hdup Heq. apply validate_document_plan_empty in Heq as [_ Hnd].
  rewrite (three_dup_planned _ Hdup) in Hnd.
  apply (proj1 (NoDup_count _)) with (x := f3) in Hnd.
  rewrite !count_cons, count_nil in Hnd.
  rewrite !(decide_True (P := f3 = f3)) in Hnd by done. lia.
Qed.

End ThreeFacts.

(** C8.  Three distinct input facts, numbered 1, 2, 3 by the planner.  A
    reply assigning 1 and 2 to section 0 and 3 to section 1 passes the
    validator and the loop returns it.  A reply assigning 1, 2, 3 to
    section 0 and 3 to section 1 is rejected: the validator reports exactly
    fact 3 as duplicated, and when an attempt is left the loop goes on with
    the context extended by the rejected reply and by the validator's
    message, which is what the next generation call is sent. *)
Theorem three_fact_scenario `{!Externals} (f1 f2 f3 : string) (good dup : DocumentPlan.t)
    (n attempt : nat) (messages : list message)
    (wg wd : World) (reply_g reply_d : string) (tape_g tape_d : list (option string)) :
  NoDup [f1; f2; f3] →
  SectionPlan.facts <$> DocumentPlan.sections good = [["1"; "2"]; ["3"]] →
  SectionPlan.facts <$> DocumentPlan.sections dup = [["1"; "2"; "3"]; ["3"]] →
  parse_plan_response reply_g = Ok good →
  parse_plan_response reply_d = Ok dup →
  llm_tape wg = Some reply_g :: tape_g →
  llm_tape wd = Some reply_d :: tape_d →
  let facts := [f1; f2; f3] in
  let ids := Planner.fact_id_to_string facts in
  let accepted := Planner.convert_ids ids good in
  let rejected := Planner.convert_ids ids dup in
  let error_msg := Planner._validate_document_plan rejected facts in
  let messages' :=
    messages ++ [Message "assistant" reply_d; Message "user" (plan_feedback error_msg)] in
  (Planner._validate_document_plan accepted facts = ""
   ∧ Planner.planned_facts accepted = [f1; f2; f3]
   ∧ (Planner.plan_loop facts (S n) attempt messages wg).1 = Returned accepted)
  ∧ (Planner.duplicates (Planner.planned_facts rejected) = [f3]
     ∧ error_msg = duplicate_message (py_repr [f3])
     ∧ Planner.plan_loop facts (S (S n)) attempt messages wd
       = Planner.plan_loop facts (S n) (S attempt) messages'
           (set_log
              ((WARNING, "Document plan validation failed (Attempt "
                         +:+ pretty (attempt + 1) +:+ "): " +:+ error_msg) :: log wd)
              (set_llm tape_d (messages :: llm_calls wd) wd))
     ∧ ∃ calls,
         calls_since wd (Planner.plan_loop facts (S (S n)) attempt messages wd).2
           (calls ++ [messages'; messages])).
Proof.
  intros Hdistinct Hgood Hdup Hpg Hpd Htg Htd. cbv zeta.
  split.
  - pose proof (three_good_valid f1 f2 f3 Hdistinct good Hgood) as Hvalid.
    split; [done|]. split; [by apply three_good_planned|].
    by rewrite (plan_loop_accept _ n attempt messages wg reply_g tape_g good Htg Hpg Hvalid).
  - pose proof (three_dup_invalid f1 f2 f3 dup Hdup) as Hinvalid.
    pose proof (plan_loop_reject _ (S n) attempt messages wd reply_d tape_d dup
                  Htd Hpd Hinvalid) as Hstep.
    split; [by rewrite (three_dup_planned f1 f2 f3 dup Hdup), (three_duplicates f1 f2 f3)|].
    split; [by apply three_dup_message|]. split; [exact Hstep|].
    rewrite Hstep.
    match goal with |- context [Planner.plan_loop _ _ _ ?m1 ?w1] =>
      destruct (plan_loop_first_call [f1; f2; f3] n (S attempt) m1 w1) as [calls Hcalls]
    end.
    exists calls. unfold calls_since in *. rewrite Hcalls. simpl.
    by rewrite <- !app_assoc.
Qed.

Lemma three_fact_scenario_witness :
  let facts := Examples.three_facts in
  let ids := Planner.fact_id_to_string facts in
  let good := Examples.two_sections ["1"; "2"] ["3"] in
  let dup := Examples.two_sections ["1"; "2"; "3"] ["3"] in
  let error_msg :=
    Planner._validate_document_plan (H := Examples.toy) (Planner.convert_ids ids dup) facts in
  let messages' :=
    Examples.first_context
    ++ [Message "assistant" Examples.duplicate_reply; Message "user" (plan_feedback error_msg)] in
  (Planner._validate_document_plan (H := Examples.toy) (Planner.convert_ids ids good) facts = ""
   ∧ Planner.planned_facts (Planner.convert_ids ids good) = ["1"; "2"; "3"]
   ∧ (Planner.plan_loop (H := Examples.toy) facts 3 0 Examples.first_context
        Examples.good_world).1 = Returned (Planner.convert_ids ids good))
  ∧ (Planner.duplicates (Planner.planned_facts (Planner.convert_ids ids dup)) = ["3"]
     ∧ error_msg = duplicate_message "[3]"
     ∧ Planner.plan_loop (H := Examples.toy) facts 3 0 Examples.first_context
         Examples.retry_world
       = Planner.plan_loop (H := Examples.toy) facts 2 1 messages'
           (set_log
              [(WARNING, "Document plan validation failed (Attempt "
                         +:+ pretty (0 + 1) +:+ "): " +:+ error_msg)]
              (set_llm [Some Examples.good_reply] [Examples.first_context]
                 Examples.retry_world))
     ∧ ∃ calls,
         calls_since Examples.retry_world
           (Planner.plan_loop (H := Examples.toy) facts 3 0 Examples.first_context
              Examples.retry_world).2
           (calls ++ [messages'; Examples.first_context])).
Proof.
  apply (three_fact_scenario (H := Examples.toy) "1" "2" "3"
           (Examples.two_sections ["1"; "2"] ["3"])
           (Examples.two_sections ["1"; "2"; "3"] ["3"])
           1 0 Examples.first_context Examples.good_world Examples.retry_world
           Examples.good_reply Examples.duplicate_reply [] [Some Examples.good_reply]).
  - apply (bool_decide_unpack _). vm_compute. exact I.
  - reflexivity.
  - reflexivity.
  - vm_compute. reflexivity.
  - vm_compute. reflexivity.
  - reflexivity.
  - reflexivity.
Defined.

(** ** The cells a strategy assignment must cover *)






Section StrategyValidation.
Context `{!Externals}.



End StrategyValidation.

Section AssignStrategies.
Context `{!Externals}.



End AssignStrategies.

(** ** C6: the cell coverage of returned assignments *)




(** ** C9: the disabled strategize stage *)






Section DisabledStage.
Context `{!Externals}.


End DisabledStage.




(** ** C5: split facts in the prompts of the writer and the verifier *)

Section SplitFacts.
Context `{!Externals}.

(** [write_section]: a fact object with sub-facts contributes nothing but
    entries of its sub-facts with their sub-guidance. *)
Lemma write_entries_split lookup fact_str fact_obj e :
  lookup !! fact_str = Some fact_obj →
  FactWritingGuidance.sub_facts fact_obj ≠ [] →
  e ∈ Writer.write_entries lookup fact_str →
  ∃ sub_fact sub_guidance,
    (sub_fact, sub_guidance) ∈ FactWritingGuidance.sub_facts fact_obj
    ∧ e = Writer.entry sub_fact sub_guidance.
Proof.
  intros Hobj Hsplit. unfold Writer.write_entries. rewrite Hobj.
  destruct (Py.od_get fact_str (FactWritingGuidance.sub_facts fact_obj))
    as [sub_guidance|] eqn:Hsub.
  - intros ->%list_elem_of_singleton. exists fact_str, sub_guidance.
    split; [by apply od_get_elem|done].
  - destruct (FactWritingGuidance.sub_facts fact_obj) as [|sf sub_facts]; [done|].
    intros ([sub_fact sub_guidance] & -> & Hin)%list_elem_of_fmap.
    by exists sub_fact, sub_guidance.
Qed.

(** [verify_section]: likewise. *)
Lemma verify_entries_split lookup fact_str fact_obj e :
  lookup !! fact_str = Some fact_obj →
  FactWritingGuidance.sub_facts fact_obj ≠ [] →
  e ∈ Verifier.verify_entries lookup fact_str →
  ∃ sub_fact sub_guidance,
    (sub_fact, sub_guidance) ∈ FactWritingGuidance.sub_facts fact_obj
    ∧ e = Verifier.entry fact_obj sub_fact sub_guidance.
Proof.
  intros Hobj Hsplit. unfold Verifier.verify_entries. rewrite Hobj.
  destruct (Py.od_get fact_str (FactWritingGuidance.sub_facts fact_obj))
    as [sub_guidance|] eqn:Hsub.
  - intros ->%list_elem_of_singleton. exists fact_str, sub_guidance.
    split; [by apply od_get_elem|done].
  - destruct (FactWritingGuidance.sub_facts fact_obj) as [|sf sub_facts]; [done|].
    intros ([sub_fact sub_guidance] & -> & Hin)%list_elem_of_fmap.
    by exists sub_fact, sub_guidance.
Qed.

(** [repair_section]: a parent fact named by the plan is listed itself,
    with its own guidance, before its sub-facts. *)
Lemma repair_entries_parent lookup fact_str fact_obj :
  lookup !! fact_str = Some fact_obj →
  Py.od_get fact_str (FactWritingGuidance.sub_facts fact_obj) = None →
  Writer.repair_entries lookup fact_str
  = Writer.entry fact_str (FactWritingGuidance.writing_guidance fact_obj)
    :: ((λ '(sub_fact, sub_guidance), Writer.entry sub_fact sub_guidance)
        <$> FactWritingGuidance.sub_facts fact_obj).
Proof. intros Hobj Hsub. unfold Writer.repair_entries. by rewrite Hobj, Hsub. Qed.

(** The refiner leaves the guidance of a fact it splits empty. *)
Lemma fact_guidance_loop_split_inert pk attr value cell_guidance main_fact cache_path
    initial n messages w fact_obj w' :
  Refiner.fact_guidance_loop pk attr value cell_guidance main_fact cache_path
    initial n messages w = (Returned (Some fact_obj), w') →
  FactWritingGuidance.sub_facts fact_obj ≠ [] →
  FactWritingGuidance.writing_guidance fact_obj = "".
Proof.
  revert messages w. induction n as [|n IH]; intros messages w; [done|].
  cbn [Refiner.fact_guidance_loop].
  intros (r & w1 & Htry & Hrest)%bind_Returned Hsplit.
  destruct r as [obj|messages']; [|by eapply IH].
  injection Hrest as -> ->.
  apply try_except_Returned in Htry as [Hbody|(e & w2 & _ & Hh)].
  - apply bind_Returned in Hbody as (response & w2 & _ & Hbody).
    apply bind_Returned in Hbody as ([is_split sub_facts_dict] & w3 & _ & Hbody).
    destruct is_split.
    + apply bind_Returned in Hbody as ([ok error_msg] & w4 & _ & Hbody).
      destruct ok; cbn [negb] in Hbody.
      * apply bind_Returned in Hbody as (? & ? & _ & [= <- _]). done.
      * apply bind_Returned in Hbody as (? & ? & _ & [=]).
    + apply bind_Returned in Hbody as (? & ? & _ & [= <- _]). done.
  - apply bind_Returned in Hh as (? & ? & _ & [=]).
Qed.

End SplitFacts.

(** C5.  The claim holds for [write_section] and [verify_section] (see
    [write_entries_split] and [verify_entries_split]) and fails for
    [repair_section]: for the fact [The a for 'r1' is 1] split into the
    sub-fact [a is one], and a section plan naming the parent fact, the
    writer and the verifier list the sub-fact only, while the repair prompt
    lists the parent fact with the parent guidance first. *)
Theorem repair_section_lists_parent_fact :
  Writer.write_facts_with_guidance Examples.parent_plan Examples.split_map
  = [Writer.entry "a is one" "say it in words"]
  ∧ Verifier.verify_facts_with_guidance Examples.parent_plan Examples.split_map
    = [Verifier.entry Examples.split_fact "a is one" "say it in words"]
  ∧ Writer.repair_facts_with_guidance Examples.parent_plan Examples.split_map
    = [Writer.entry "The a for 'r1' is 1" "parent guidance";
       Writer.entry "a is one" "say it in words"].
Proof. repeat split; vm_compute; reflexivity. Qed.

(** ** C10: what the verify and repair steps do on failure *)

Section VerifyRepairTotal.
Context `{!Externals}.

(** [verify_section] always returns; when the generation call raises or
    its output cannot be decoded, the verdict is negative with one defect
    record. *)
Lemma verify_section_total content section_plan fact_map table_data strategy_assignment w :
  ∃ verification w',
    Verifier.verify_section content section_plan fact_map table_data
      strategy_assignment w = (Returned verification, w')
    ∧ fs w' = fs w ∧ heap w' = heap w
    ∧ ((∃ reply tape, llm_tape w = Some reply :: tape
                      ∧ parse_verification_response reply = Ok verification)
       ∨ (VerificationResult.ok verification = false
          ∧ VerificationResult.errors verification ≠ [])).
Proof.
  unfold Verifier.verify_section, try_except, bind at 1, call_llm.
  destruct (llm_tape w) as [|[reply|] tape] eqn:Htape.
  - eexists _, _. split; [reflexivity|]. split; [done|]. split; [done|]. by right.
  - destruct (parse_verification_response reply) as [verification|e] eqn:Hparse.
    + eexists _, _. split; [reflexivity|]. split; [done|]. split; [done|].
      left. by exists reply, tape.
    + eexists _, _. split; [reflexivity|]. split; [done|]. split; [done|]. by right.
  - eexists _, _. split; [reflexivity|]. split; [done|]. split; [done|]. by right.
Qed.

(** With well-formed defect records, [repair_section] always returns: the
    generated text, or the original content when the call raises. *)
Lemma repair_section_total original_content section_plan fact_map errors w :
  is_ok (rmapM Writer.error_line errors) = true →
  ∃ content w',
    Writer.repair_section original_content section_plan fact_map errors w
    = (Returned content, w')
    ∧ ((∃ tape, llm_tape w = Some content :: tape) ∨ content = original_content).
Proof.
  intros Hok. unfold Writer.repair_section.
  destruct (rmapM Writer.error_line errors) as [error_lines|e]; [|done].
  unfold bind at 1. cbn [lift ret]. unfold try_except, call_llm.
  destruct (llm_tape w) as [|[reply|] tape] eqn:Htape.
  - eexists _, _. split; [reflexivity|]. by right.
  - eexists _, _. split; [reflexivity|]. left. by exists tape.
  - eexists _, _. split; [reflexivity|]. by right.
Qed.

(** A defect record without [description] or [suggestion] makes
    [repair_section] raise [KeyError] before any generation call. *)
Lemma repair_section_key_error original_content section_plan fact_map errors e w :
  rmapM Writer.error_line errors = Raise e →
  Writer.repair_section original_content section_plan fact_map errors w = (Raised e, w).
Proof. intros Hbad. unfold Writer.repair_section. by rewrite Hbad. Qed.

(** The task does not handle what [repair_section] raises. *)
Lemma verify_repair_section_task_key_error section section_plan fact_map table_data
    strategy_assignment cache_path w reply tape verification e :
  llm_tape w = Some reply :: tape →
  parse_verification_response reply = Ok verification →
  VerificationResult.ok verification = false →
  rmapM Writer.error_line (VerificationResult.errors verification) = Raise e →
  (Main.verify_repair_section_task section section_plan fact_map table_data
     strategy_assignment cache_path w).1 = Raised e.
Proof.
  intros Htape Hparse Hno Hbad. unfold Main.verify_repair_section_task.
  unfold bind at 1, get_obj at 1. unfold bind at 1.
  unfold Verifier.verify_section, try_except, bind at 1.
  rewrite (call_llm_returns _ _ _ _ Htape), Hparse. cbn [lift ret].
  rewrite Hno. unfold bind at 1, get_obj at 1. unfold bind at 1.
  by rewrite (repair_section_key_error _ _ _ _ e).
Qed.

End VerifyRepairTotal.

(** C10.  The claim holds for [verify_section] (see [verify_section_total])
    and fails for [repair_section]: the error lines are built before the
    guarded generation call, so for a defect record that has a
    [description] and no [suggestion] the function raises [KeyError]
    whatever its other arguments; the verifier hands such a record over
    unchanged, and [verify_repair_section_task] lets the exception out. *)
Theorem repair_section_raises_key_error `{!Externals} original_content section_plan
    fact_map w :
  Writer.repair_section original_content section_plan fact_map [Examples.bare_error] w
  = (Raised (KeyError "suggestion"), w).
Proof. by apply repair_section_key_error. Qed.

(** The same through the task, on a concrete run: the verdict [not found]
    is decoded into a defect record without [suggestion]. *)
Lemma verify_repair_section_task_raises :
  (Main.verify_repair_section_task (H := Examples.toy) 0 Examples.parent_plan
     Examples.split_map Examples.full_table (StrategyAssignment.Build ∅)
     "document/t/cache/section_0.json"
     (set_heap [DocSection.Build 0 "title" "text" false]
        (Examples.world ∅ [Some "not found"]))).1
  = Raised (KeyError "suggestion").
Proof. vm_compute. reflexivity. Qed.

(** ** C7: stages with a cache artifact *)

Lemma set_log_same w : set_log (log w) w = w.
Proof. by destruct w. Qed.

Lemma path_exists_eq path w :
  path_exists path w = (Returned (bool_decide (is_Some (fs w !! path))), w).
Proof. done. Qed.



Section Resumable.
Context `{!Externals} (config : Config.t).







End Resumable.



(** ** C2: failed units of a fan-out *)



(** [as_completed] yields every future, once. *)
Lemma completion_order_perm {A} (running : list A) sched :
  completion_order sched (length running) running ≡ₚ running.
Proof.
  remember (length running) as n eqn:Hn. revert running sched Hn.
  induction n as [|n IH]; intros running sched Hn.
  - by destruct running.
  - cbn [completion_order].
    destruct (lookup_lt_is_Some_2 running (hd 0 sched `mod` length running))
      as [x Hx].
    { apply Nat.mod_upper_bound. rewrite <- Hn. lia. }
    rewrite Hx. etrans; [|symmetry; apply (delete_Permutation running _ x Hx)].
    constructor. apply IH.
    pose proof (length_delete running _ (mk_is_Some _ _ Hx)) as Hlen. lia.
Qed.






Section WriteFanOut.
Context `{!Externals}.






End WriteFanOut.

Section RefineFanOut.
Context `{!Externals} (config : Config.t).




End RefineFanOut.




(** ** What the stages write *)

Section Footprint.
Context `{!Externals} (config : Config.t).
Context (R : relation World) `{!PreOrder R} `{!Insensitive R} `{!IgnoresLlm R}.

Lemma writable_tolerates path f : writable R path → tolerates R (insert path f).
Proof. intros Hw. apply Hw. Qed.
Hint Resolve writable_tolerates : preserves.

Lemma preserves_copy2_writable src dst : writable R dst → preserves R (copy2 src dst).
Proof. intros Hw. apply preserves_copy2; [done..|]. apply Hw. Qed.
Hint Resolve preserves_copy2_writable : preserves.

Lemma assign_loop_footprint table_data n :
  ∀ attempt messages, preserves R (Planner.assign_loop table_data n attempt messages).
Proof.
  induction n as [|n IH]; intros attempt messages;
    cbn [Planner.assign_loop]; preserves_go.
Qed.
Hint Resolve assign_loop_footprint : preserves.

Lemma assign_strategies_footprint table_data :
  preserves R (Planner.assign_strategies config table_data).
Proof. unfold Planner.assign_strategies. preserves_go. Qed.
Hint Resolve assign_strategies_footprint : preserves.

Lemma plan_loop_footprint facts n :
  ∀ attempt messages, preserves R (Planner.plan_loop facts n attempt messages).
Proof.
  induction n as [|n IH]; intros attempt messages;
    cbn [Planner.plan_loop]; preserves_go.
Qed.
Hint Resolve plan_loop_footprint : preserves.

Lemma plan_document_footprint facts table_data fact_map :
  preserves R (Planner.plan_document config facts table_data fact_map).
Proof. unfold Planner.plan_document. preserves_go. Qed.
Hint Resolve plan_document_footprint : preserves.

(** *** The refiner writes the two cache files of a cell *)

Lemma verify_cell_guidance_footprint pk attr value strategies guidance markdown_table
    detailed_defs table_data :
  preserves R (Refiner._verify_cell_guidance pk attr value strategies guidance
                 markdown_table detailed_defs table_data).
Proof. unfold Refiner._verify_cell_guidance. preserves_go. Qed.
Hint Resolve verify_cell_guidance_footprint : preserves.

Lemma cell_guidance_loop_footprint pk attr value strategies markdown_table detailed_defs
    cache_path table_data initial n :
  writable R cache_path →
  ∀ messages,
    preserves R (Refiner.cell_guidance_loop pk attr value strategies markdown_table
                   detailed_defs cache_path table_data initial n messages).
Proof.
  intros Hw. induction n as [|n IH]; intros messages;
    cbn [Refiner.cell_guidance_loop]; preserves_go.
Qed.
Hint Resolve cell_guidance_loop_footprint : preserves.

Lemma generate_cell_guidance_fresh_footprint pk attr value strategies markdown_table
    cache_path table_data :
  writable R cache_path →
  preserves R (Refiner.generate_cell_guidance_fresh config pk attr value strategies
                 markdown_table cache_path table_data).
Proof. intros Hw. unfold Refiner.generate_cell_guidance_fresh. preserves_go. Qed.
Hint Resolve generate_cell_guidance_fresh_footprint : preserves.

Lemma generate_cell_guidance_footprint pk attr value strategies markdown_table
    cache_dir cache_key table_data :
  writable R (Py.path_join cache_dir (cache_key +:+ ".json")) →
  preserves R (Refiner._generate_cell_guidance config pk attr value strategies
                 markdown_table cache_dir cache_key table_data).
Proof. intros Hw. unfold Refiner._generate_cell_guidance. preserves_go. Qed.
Hint Resolve generate_cell_guidance_footprint : preserves.

Lemma verify_fact_guidance_footprint attr value original_guidance original_fact
    sub_facts :
  preserves R (Refiner._verify_fact_guidance attr value original_guidance
                 original_fact sub_facts).
Proof. unfold Refiner._verify_fact_guidance. preserves_go. Qed.
Hint Resolve verify_fact_guidance_footprint : preserves.

Lemma fact_guidance_loop_footprint pk attr value cell_guidance main_fact cache_path
    initial n :
  writable R cache_path →
  ∀ messages,
    preserves R (Refiner.fact_guidance_loop pk attr value cell_guidance main_fact
                   cache_path initial n messages).
Proof.
  intros Hw. induction n as [|n IH]; intros messages;
    cbn [Refiner.fact_guidance_loop]; preserves_go.
Qed.
Hint Resolve fact_guidance_loop_footprint : preserves.

Lemma generate_fact_guidance_footprint pk attr value cell_guidance strategies
    markdown_table cache_path table_data :
  writable R cache_path →
  preserves R (Refiner._generate_fact_guidance config pk attr value cell_guidance
                 strategies markdown_table cache_path table_data).
Proof. intros Hw. unfold Refiner._generate_fact_guidance. preserves_go. Qed.
Hint Resolve generate_fact_guidance_footprint : preserves.

Lemma process_cell_fresh_footprint pk attr value strategies markdown_table
    cell_cache_dir fact_cache_path cache_key table_data :
  writable R (Py.path_join cell_cache_dir (cache_key +:+ ".json")) →
  writable R fact_cache_path →
  preserves R (Refiner.process_cell_fresh config pk attr value strategies
                 markdown_table cell_cache_dir fact_cache_path cache_key table_data).
Proof. intros Hc Hf. unfold Refiner.process_cell_fresh. preserves_go. Qed.
Hint Resolve process_cell_fresh_footprint : preserves.

Lemma process_single_cell_footprint pk attr strategies row_lookup markdown_table
    cell_cache_dir fact_cache_dir cache_key table_data :
  writable R (Py.path_join cell_cache_dir (cache_key +:+ ".json")) →
  writable R (Py.path_join fact_cache_dir (cache_key +:+ ".json")) →
  preserves R (Refiner._process_single_cell config pk attr strategies row_lookup
                 markdown_table cell_cache_dir fact_cache_dir cache_key table_data).
Proof. intros Hc Hf. unfold Refiner._process_single_cell. preserves_go. Qed.
Hint Resolve process_single_cell_footprint : preserves.

Lemma submit_cells_footprint row_lookup markdown_table cell_cache_dir fact_cache_dir
    table_data sorted_headers items :
  (∀ name, writable R (Py.path_join cell_cache_dir name)) →
  (∀ name, writable R (Py.path_join fact_cache_dir name)) →
  preserves R (Refiner.submit_cells config row_lookup markdown_table cell_cache_dir
                 fact_cache_dir table_data sorted_headers items).
Proof.
  intros Hc Hf. induction items as [|[cell_key strategies] items IH];
    cbn [Refiner.submit_cells]; preserves_go.
Qed.
Hint Resolve submit_cells_footprint : preserves.

Lemma refine_all_cells_footprint strategy_assignment table_data cache_dir :
  (∀ name, writable R (Py.path_join cache_dir name)) →
  (∀ dir name, writable R (Py.path_join (Py.path_join cache_dir dir) name)) →
  preserves R (Refiner.refine_all_cells config strategy_assignment table_data cache_dir).
Proof. intros Hd Hf. unfold Refiner.refine_all_cells. preserves_go. Qed.
Hint Resolve refine_all_cells_footprint : preserves.

(** *** The writer and the verifier write nothing *)

Lemma write_section_footprint section_plan fact_map theme genre previous_summary :
  preserves R (Writer.write_section section_plan fact_map theme genre previous_summary).
Proof. unfold Writer.write_section. preserves_go. Qed.
Hint Resolve write_section_footprint : preserves.

Lemma repair_section_footprint original_content section_plan fact_map errors :
  preserves R (Writer.repair_section original_content section_plan fact_map errors).
Proof. unfold Writer.repair_section. preserves_go. Qed.
Hint Resolve repair_section_footprint : preserves.

Lemma verify_section_footprint content section_plan fact_map table_data
    strategy_assignment :
  preserves R (Verifier.verify_section content section_plan fact_map table_data
                 strategy_assignment).
Proof. unfold Verifier.verify_section. preserves_go. Qed.
Hint Resolve verify_section_footprint : preserves.

(** *** The steps of a job write their artifacts *)

Lemma write_section_task_footprint section_plan fact_map theme genre previous_summary
    cache_path task_name :
  writable R cache_path →
  preserves R (Main.write_section_task section_plan fact_map theme genre
                 previous_summary cache_path task_name).
Proof.
  intros Hw. unfold Main.write_section_task, Main.write_section_fresh. preserves_go.
Qed.
Hint Resolve write_section_task_footprint : preserves.

Lemma verify_repair_section_task_footprint section section_plan fact_map table_data
    strategy_assignment cache_path :
  writable R cache_path →
  preserves R (Main.verify_repair_section_task section section_plan fact_map
                 table_data strategy_assignment cache_path).
Proof. intros Hw. unfold Main.verify_repair_section_task. preserves_go. Qed.
Hint Resolve verify_repair_section_task_footprint : preserves.

Lemma strategy_stage_footprint task_name output_dir table_data :
  writable R (Py.path_join output_dir "strategy_assignment.json") →
  preserves R (Main.strategy_stage config task_name output_dir table_data).
Proof.
  intros Hw. unfold Main.strategy_stage, Main.generate_strategy. preserves_go.
Qed.
Hint Resolve strategy_stage_footprint : preserves.

Lemma guidance_stage_footprint task_name output_dir cache_dir strategy_assignment
    table_data :
  writable R (Py.path_join output_dir "fact_guidance.json") →
  writable R cache_dir →
  (∀ name, writable R (Py.path_join cache_dir name)) →
  (∀ dir name, writable R (Py.path_join (Py.path_join cache_dir dir) name)) →
  preserves R (Main.guidance_stage config task_name output_dir cache_dir
                 strategy_assignment table_data).
Proof.
  intros Hg Hc Hd Hf. unfold Main.guidance_stage, Main.generate_guidance. preserves_go.
Qed.
Hint Resolve guidance_stage_footprint : preserves.

Lemma plan_stage_footprint task_name output_dir fact_list fact_map table_data :
  writable R (Py.path_join output_dir "document_plan.json") →
  preserves R (Main.plan_stage config task_name output_dir fact_list fact_map table_data).
Proof. intros Hw. unfold Main.plan_stage, Main.generate_plan. preserves_go. Qed.
Hint Resolve plan_stage_footprint : preserves.

Lemma submit_sections_footprint document_plan fact_map cache_dir task_name plans :
  (∀ name, writable R (Py.path_join cache_dir name)) →
  ∀ i prev,
    preserves R (Main.submit_sections document_plan fact_map cache_dir task_name
                   i prev plans).
Proof.
  intros Hw. induction plans as [|section_plan plans IH]; intros i prev;
    cbn [Main.submit_sections]; unfold Main.section_cache_path; preserves_go.
Qed.
Hint Resolve submit_sections_footprint : preserves.

Lemma collect_sections_footprint task_name done :
  ∀ sections, preserves R (Main.collect_sections task_name done sections).
Proof.
  induction done as [|[idx future] done IH]; intros sections;
    cbn [Main.collect_sections]; preserves_go.
Qed.
Hint Resolve collect_sections_footprint : preserves.

Lemma write_stage_footprint task_name cache_dir document_plan fact_map :
  writable R cache_dir →
  (∀ name, writable R (Py.path_join cache_dir name)) →
  preserves R (Main.write_stage task_name cache_dir document_plan fact_map).
Proof. intros Hc Hw. unfold Main.write_stage. preserves_go. Qed.
Hint Resolve write_stage_footprint : preserves.

Lemma submit_repairs_footprint document_plan fact_map table_data strategy_assignment
    cache_dir unverified :
  (∀ name, writable R (Py.path_join cache_dir name)) →
  preserves R (Main.submit_repairs document_plan fact_map table_data
                 strategy_assignment cache_dir unverified).
Proof.
  intros Hw. induction unverified as [|section unverified IH];
    cbn [Main.submit_repairs]; unfold Main.section_cache_path; preserves_go.
Qed.
Hint Resolve submit_repairs_footprint : preserves.

Lemma update_sections_footprint done :
  ∀ document, preserves R (Main.update_sections done document).
Proof.
  induction done as [|future done IH]; intros document;
    cbn [Main.update_sections]; preserves_go.
Qed.
Hint Resolve update_sections_footprint : preserves.

Lemma verify_rounds_footprint task_name cache_dir document_plan fact_map table_data
    strategy_assignment n :
  (∀ name, writable R (Py.path_join cache_dir name)) →
  ∀ attempt document,
    preserves R (Main.verify_rounds task_name cache_dir document_plan fact_map
                   table_data strategy_assignment n attempt document).
Proof.
  intros Hw. induction n as [|n IH]; intros attempt document;
    cbn [Main.verify_rounds]; preserves_go.
Qed.
Hint Resolve verify_rounds_footprint : preserves.

(** Steps 0 to 4 write below the output directory of the job, under the
    names of the stage artifacts and in the cache directory. *)
Lemma run_steps_footprint file_path :
  let output_dir := Main.output_dir_of config file_path in
  let cache_dir := Main.cache_dir_of config file_path in
  writable R (Py.path_join output_dir "raw_table.json") →
  writable R (Py.path_join output_dir "strategy_assignment.json") →
  writable R (Py.path_join output_dir "fact_guidance.json") →
  writable R (Py.path_join output_dir "document_plan.json") →
  writable R cache_dir →
  (∀ name, writable R (Py.path_join cache_dir name)) →
  (∀ dir name, writable R (Py.path_join (Py.path_join cache_dir dir) name)) →
  preserves R (Main.run_steps config file_path).
Proof.
  intros output_dir cache_dir Hraw Hstrategy Hguidance Hplan Hcache Hdir Hfile.
  unfold Main.run_steps. fold output_dir cache_dir. preserves_go.
Qed.

End Footprint.

(** ** Paths of a job *)

Lemma string_app_cons x (a b : string) : String x a +:+ b = String x (a +:+ b).
Proof. done. Qed.

Lemma string_app_assoc (a b c : string) : (a +:+ b) +:+ c = a +:+ (b +:+ c).
Proof. induction a as [|x a IH]; [done|]. rewrite !string_app_cons. by f_equal. Qed.

Lemma string_app_nil_r (a : string) : a +:+ "" = a.
Proof. induction a as [|x a IH]; [done|]. rewrite string_app_cons. by f_equal. Qed.

Lemma string_app_length (a b : string) :
  String.length (a +:+ b) = String.length a + String.length b.
Proof. induction a as [|x a IH]; [done|]. rewrite string_app_cons. cbn. by f_equal. Qed.

Lemma prefix_app (a b c : string) :
  String.prefix (a +:+ b) (a +:+ c) = String.prefix b c.
Proof.
  induction a as [|x a IH]; [done|]. rewrite !string_app_cons. cbn.
  by destruct (Ascii.ascii_dec x x).
Qed.

Lemma app_ne_self (a b : string) : b ≠ "" → a ≠ a +:+ b.
Proof.
  intros Hb Heq. apply (f_equal String.length) in Heq.
  rewrite string_app_length in Heq. destruct b; [done|]. cbn in Heq. lia.
Qed.

Section JobPaths.
Context (config : Config.t) (file_path : string).
Let output_dir := Main.output_dir_of config file_path.
Let cache_dir := Main.cache_dir_of config file_path.
Let final_doc_path := Main.final_doc_path_of config file_path.

Lemma output_dir_not_final : output_dir ≠ final_doc_path.
Proof. by apply app_ne_self. Qed.

Lemma artifact_not_final name :
  name ≠ "final_document.md" → Py.path_join output_dir name ≠ final_doc_path.
Proof.
  intros Hname Heq. unfold final_doc_path, Main.final_doc_path_of, Py.path_join in Heq.
  fold output_dir in Heq. by apply (inj _), (inj _) in Heq.
Qed.

Lemma cache_dir_not_final : cache_dir ≠ final_doc_path.
Proof. by apply artifact_not_final. Qed.

Lemma cache_entry_not_final name : Py.path_join cache_dir name ≠ final_doc_path.
Proof.
  unfold cache_dir, final_doc_path, Main.cache_dir_of, Main.final_doc_path_of,
    Py.path_join.
  fold output_dir. rewrite string_app_assoc. intros Heq. by apply (inj _) in Heq.
Qed.

Lemma final_not_under_cache : under cache_dir final_doc_path = false.
Proof.
  unfold under. rewrite bool_decide_eq_false_2 by (intros Heq; by apply cache_dir_not_final).
  unfold cache_dir, final_doc_path, Main.cache_dir_of, Main.final_doc_path_of,
    Py.path_join, Py.startswith.
  fold output_dir. by rewrite string_app_assoc, prefix_app.
Qed.

End JobPaths.

(** ** Nothing removed, the final path left alone *)

Global Instance untouched_preorder path : PreOrder (untouched path).
Proof.
  split.
  - by intros w.
  - intros w1 w2 w3 [Hr1 Hf1] [Hr2 Hf2]. split; congruence.
Qed.

Global Instance untouched_insensitive path : Insensitive (untouched path).
Proof. by split. Qed.

Global Instance untouched_ignores_llm path : IgnoresLlm (untouched path).
Proof. by intros w t c. Qed.

Lemma untouched_writable path p : p ≠ path → writable (untouched path) p.
Proof.
  intros Hp f w. split; [done|]. cbn. by apply lookup_insert_ne.
Qed.

Lemma untouched_set_log path w w' l : untouched path w w' → untouched path w (set_log l w').
Proof. by intros [? ?]. Qed.

(** ** The synthesis *)

Lemma bind_run {A B} (m : M A) (k : A → M B) w :
  bind m k w = match m w with
               | (Returned a, w') => k a w'
               | (Raised e, w') => (Raised e, w')
               | (Crashed, w') => (Crashed, w')
               end.
Proof. done. Qed.

Lemma verified_count_all (sections : list DocSection.t) :
  length (filter (λ s, DocSection.verified s = true) sections) = length sections
  ↔ all_verified sections.
Proof.
  unfold all_verified. induction sections as [|s sections IH]; [done|].
  rewrite filter_cons, Forall_cons. case_decide as Hs; cbn.
  - rewrite <- IH. split; [intros [=]; done|intros [_ ->]; done].
  - pose proof (length_filter (λ s, DocSection.verified s = true) sections).
    split; [lia|tauto].
Qed.

Lemma f_write_outcome path text old w :
  fs w !! path = Some (FText old) →
  f_write path text w = (Crashed, w)
  ∨ ∃ w1, f_write path text w = (Returned (), w1)
          ∧ heap w1 = heap w ∧ removed w1 = removed w
          ∧ fs w1 = <[path := FText (old +:+ text)]> (fs w).
Proof.
  intros Hold. unfold f_write, mutate.
  destruct (budget w) as [[|n]|]; [by left|right..];
    (eexists; split; [done|]; cbn; by rewrite Hold).
Qed.

(** The chunks are appended in order; a stop leaves the first of them. *)
Lemma write_chunks final_doc_path sections :
  ∀ w old,
    fs w !! final_doc_path = Some (FText old) →
    ∀ o w',
      mapM (λ section, f_write final_doc_path (Main.final_chunk section)) sections w
      = (o, w') →
      heap w' = heap w ∧ removed w' = removed w
      ∧ (∀ p, p ≠ final_doc_path → fs w' !! p = fs w !! p)
      ∧ (((∃ l, o = Returned l)
          ∧ fs w' !! final_doc_path = Some (FText (old +:+ final_text sections)))
         ∨ (o = Crashed
            ∧ ∃ k, fs w' !! final_doc_path
                   = Some (FText (old +:+ final_text (take k sections))))).
Proof.
  induction sections as [|s sections IH]; intros w old Hold o w'.
  - intros [= <- <-]. split_and!; [done..|]. left. split; [by eexists|].
    cbn. by rewrite string_app_nil_r.
  - cbn [mapM]. rewrite bind_run.
    destruct (f_write_outcome final_doc_path (Main.final_chunk s) old w Hold)
      as [->|(w1 & -> & Hh1 & Hr1 & Hf1)].
    + intros [= <- <-]. split_and!; [done..|]. right. split; [done|]. exists 0.
      cbn. by rewrite string_app_nil_r.
    + rewrite bind_run.
      destruct (mapM _ sections w1) as [o2 w2] eqn:Hrest.
      apply (IH _ (old +:+ Main.final_chunk s)) in Hrest as (Hh & Hr & Hp & Hcase);
        [|rewrite Hf1; apply lookup_insert_eq].
      assert (∀ p, p ≠ final_doc_path → fs w2 !! p = fs w !! p) as Hp'.
      { intros p Hne. rewrite Hp, Hf1 by done. by apply lookup_insert_ne. }
      destruct Hcase as [[[l ->] Hfinal]|[-> [k Hfinal]]].
      * cbn. intros [= <- <-]. split_and!; [congruence..|done|]. left.
        split; [by eexists|]. by rewrite Hfinal, string_app_assoc.
      * intros [= <- <-]. split_and!; [congruence..|done|]. right. split; [done|].
        exists (S k). by rewrite Hfinal, string_app_assoc.
Qed.

(** The clean-up never raises; it removes the cache directory or nothing. *)
Lemma cleanup_outcome cache_dir m1 m2 w :
  ∀ o w',
    try_except (rmtree cache_dir;; logger DEBUG m1) (λ _, logger WARNING m2) w = (o, w') →
    heap w' = heap w ∧ (∀ e, o ≠ Raised e)
    ∧ ((removed w' = removed w ∧ fs w' = fs w)
       ∨ (o = Returned () ∧ removed w' = cache_dir :: removed w
          ∧ fs w' = filter (λ kv, under cache_dir kv.1 = false) (fs w))).
Proof.
  intros o w'.
  unfold try_except, rmtree, bind, path_exists, is_faulty, mutate, logger, raise.
  destruct (bool_decide (is_Some (fs w !! cache_dir))); cbn [negb];
    [|intros [= <- <-]; split_and!; [done..|by left]].
  destruct (bool_decide (cache_dir ∈ faulty w));
    [intros [= <- <-]; split_and!; [done..|by left]|].
  destruct (budget w) as [[|n]|]; intros [= <- <-]; (split_and!; [done..|]);
    first [by left|by right].
Qed.

(** The synthesis, however it ends: with a section that is not verified
    it only logs; otherwise it stops before the final document is
    complete, having removed nothing, or the final document is complete. *)
Lemma synthesize_outcome task_name final_doc_path cache_dir document w o w' :
  under cache_dir final_doc_path = false →
  Main.synthesize task_name final_doc_path cache_dir document w = (o, w') →
  heap w' = heap w
  ∧ ((¬ all_verified (sections_of w document)
      ∧ o = Returned () ∧ fs w' = fs w ∧ removed w' = removed w)
     ∨ (all_verified (sections_of w document)
        ∧ ((o ≠ Returned () ∧ removed w' = removed w
            ∧ (fs w' !! final_doc_path = fs w !! final_doc_path
               ∨ ∃ k, fs w' !! final_doc_path
                      = Some (FText (final_text (take k (sections_of w document))))))
           ∨ (fs w' !! final_doc_path
              = Some (FText (final_text (sections_of w document)))
              ∧ (removed w' = removed w
                 ∨ (o = Returned () ∧ removed w' = cache_dir :: removed w)))))).
Proof.
  intros Hunder. unfold Main.synthesize. rewrite bind_run. unfold get_heap at 1.
  fold (sections_of w document). rewrite bind_run, logger_eq.
  case_decide as Hcount.
  - rewrite logger_eq. intros [= <- <-]. split; [done|]. left.
    by rewrite <- verified_count_all.
  - apply verified_count_all in Hcount.
    rewrite bind_run, logger_eq, bind_run. unfold open_w at 1.
    rewrite bind_run. unfold is_faulty at 1. cbn [faulty set_log].
    destruct (bool_decide (final_doc_path ∈ faulty w)).
    { intros [= <- <-]. split; [done|]. right. split; [done|]. left.
      split_and!; [done..|by left]. }
    unfold mutate at 1. cbn [budget set_log].
    destruct (budget w) as [[|n]|].
    { intros [= <- <-]. split; [done|]. right. split; [done|]. left.
      split_and!; [done..|by left]. }
    all: rewrite bind_run;
      match goal with
      | |- context [mapM ?f ?l ?w1] =>
          destruct (mapM f l w1) as [o2 w2] eqn:Hwrites;
          apply (write_chunks _ _ _ "") in Hwrites
            as (Hh2 & Hr2 & Hp2 & [[[l2 ->] Hfinal]|[-> [k Hfinal]]]);
          [| |cbn; apply lookup_insert_eq]
      end.
    all: cbn in Hh2, Hr2, Hfinal.
    all: try (intros [= <- <-]; split; [done|]; right; split; [done|]; left;
              split_and!; [done..|right; by exists k]).
    all: rewrite bind_run;
      match goal with
      | |- context [try_except ?m ?h ?w2] =>
          destruct (try_except m h w2) as [o3 w3] eqn:Hclean;
          apply cleanup_outcome in Hclean
            as (Hh3 & Hraised & [[Hr3 Hf3]|(-> & Hr3 & Hf3)])
      end.
    all: try (destruct o3 as [[]|e|]; [|by destruct (Hraised e)|];
              [rewrite logger_eq|]; intros [= <- <-];
              (split; [cbn; congruence|]); right; (split; [done|]); right;
              (split; [cbn; by rewrite Hf3|left; cbn; congruence])).
    all: rewrite logger_eq; intros [= <- <-];
      (split; [cbn; congruence|]); right; (split; [done|]); right;
      (split; [|right; split; [done|cbn; congruence]]);
      cbn; rewrite Hf3; by apply map_lookup_filter_Some_2.
Qed.

(** ** The cache is removed after the commit *)

Section Commit.
Context `{!Externals} (config : Config.t) (file_path : string).
Let task_name := Main.task_name_of file_path.
Let output_dir := Main.output_dir_of config file_path.
Let cache_dir := Main.cache_dir_of config file_path.
Let final_doc_path := Main.final_doc_path_of config file_path.

(** Steps 0 to 4 remove nothing and leave the final path alone. *)
Lemma run_steps_untouched : preserves (untouched final_doc_path) (Main.run_steps config file_path).
Proof.
  apply run_steps_footprint; try apply _;
    try (apply untouched_writable, artifact_not_final; done).
  - intros name. apply untouched_writable, cache_entry_not_final.
  - intros dir name. apply untouched_writable.
    replace (Py.path_join (Py.path_join (Main.cache_dir_of config file_path) dir) name)
      with (Py.path_join (Main.cache_dir_of config file_path) (dir +:+ "/" +:+ name));
      [apply cache_entry_not_final|].
    unfold Py.path_join. by rewrite !string_app_assoc.
Qed.

(** A job is its synthesis, run after steps that remove nothing and leave
    the final path alone, or it has no synthesis. *)
Lemma process_task_states w :
  untouched final_doc_path w (Main.process_task config file_path w).2
  ∨ ∃ document w1 l,
      untouched final_doc_path w w1
      ∧ (Main.process_task config file_path w).2
        = set_log l (Main.synthesize task_name final_doc_path cache_dir document w1).2.
Proof.
  unfold Main.process_task. rewrite bind_run, logger_eq.
  fold task_name output_dir final_doc_path.
  set (w0 := set_log _ w).
  assert (untouched final_doc_path w w0) as H0 by done.
  unfold try_except. rewrite bind_run, path_exists_eq, bind_run.
  assert (∃ o1 w1, (if bool_decide (is_Some (fs w0 !! output_dir))
                    then ret () else makedirs output_dir) w0 = (o1, w1)
                   ∧ untouched final_doc_path w w1) as (o1 & w1 & -> & H1).
  { destruct (bool_decide _); [by eexists _, _|].
    destruct (makedirs output_dir w0) as [o1 w1] eqn:Hmk. eexists _, _. split; [done|].
    etrans; [exact H0|].
    pose proof (preserves_makedirs (untouched final_doc_path) output_dir
                  (untouched_writable _ _ (output_dir_not_final config file_path) _) w0)
      as Hpres.
    by rewrite Hmk in Hpres. }
  destruct o1 as [[]|e|]; [|left; by apply untouched_set_log|by left].
  rewrite bind_run, path_exists_eq.
  destruct (bool_decide _); [left; rewrite logger_eq; by apply untouched_set_log|].
  unfold Main.run_stages. rewrite bind_run.
  fold task_name cache_dir final_doc_path.
  pose proof (run_steps_untouched w1) as H2.
  destruct (Main.run_steps config file_path w1) as [[document|e|] w2];
    cbn [snd] in H2;
    [|left; apply untouched_set_log; by etrans|left; by etrans].
  right. exists document, w2.
  destruct (Main.synthesize task_name final_doc_path cache_dir document w2)
    as [[[]|e|] w3].
  - exists (log w3). split; [by etrans|]. by rewrite set_log_same.
  - eexists. split; [by etrans|]. by rewrite logger_eq.
  - exists (log w3). split; [by etrans|]. by rewrite set_log_same.
Qed.

End Commit.

(** X1.  The synthesis of a job, started from any world with any document
    and stopped at any file-system operation or run to its end: the cache
    directory is removed only when every section of the document is
    verified and the final document holds the text of all of them; and
    the final path changes only when every section is verified, its
    content being then the text of the first sections of the document.
    The job itself, stopped anywhere or run to its end: apart from log
    lines, the world it leaves is the one left by its synthesis, started
    after steps that remove nothing and leave the final path alone, or,
    when there is no synthesis, one in which nothing was removed and the
    final path was left alone. *)
Theorem cache_removed_only_after_commit `{!Externals} (config : Config.t)
    (file_path : string) (w : World) (document : list nat) (v : World) :
  let task_name := Main.task_name_of file_path in
  let cache_dir := Main.cache_dir_of config file_path in
  let final_doc_path := Main.final_doc_path_of config file_path in
  let v' := (Main.synthesize task_name final_doc_path cache_dir document v).2 in
  let w' := (Main.process_task config file_path w).2 in
  ((removed v' = removed v
    ∨ (removed v' = cache_dir :: removed v
       ∧ all_verified (sections_of v document)
       ∧ fs v' !! final_doc_path = Some (FText (final_text (sections_of v document)))))
   ∧ (fs v' !! final_doc_path ≠ fs v !! final_doc_path →
      all_verified (sections_of v document)
      ∧ ∃ k, fs v' !! final_doc_path
             = Some (FText (final_text (take k (sections_of v document))))))
  ∧ (untouched final_doc_path w w'
     ∨ ∃ document' w1 l,
         untouched final_doc_path w w1
         ∧ w' = set_log l
                  (Main.synthesize task_name final_doc_path cache_dir document' w1).2).
Proof.
  intros task_name cache_dir final_doc_path v' w'. split; [|apply process_task_states].
  subst v'.
  destruct (Main.synthesize task_name final_doc_path cache_dir document v)
    as [o v1] eqn:Hrun.
  apply synthesize_outcome in Hrun
    as (_ & [(_ & _ & Hfs & Hremoved)
            |(Hall & [(_ & Hremoved & Hfinal)|(Hfinal & Hremoved)])]);
    [cbn [snd]..|apply final_not_under_cache].
  - split; [by left|]. intros []. by rewrite Hfs.
  - split; [by left|]. intros Hchanged. split; [done|].
    by destruct Hfinal as [Hsame|Hpart].
  - split.
    + destruct Hremoved as [Hremoved|[_ Hremoved]]; [by left|by right].
    + intros _. split; [done|]. exists (length (sections_of v document)).
      by rewrite firstn_all.
Qed.

(** ** Verify and repair, then the commit gate *)

Lemma string_app_inj_r (a b t : string) : a +:+ t = b +:+ t → a = b.
Proof.
  revert b. induction a as [|x a IH]; intros [|y b] Heq; [done| | |].
  - apply (f_equal String.length) in Heq.
    rewrite !string_app_length in Heq. cbn in Heq. lia.
  - apply (f_equal String.length) in Heq.
    rewrite !string_app_length in Heq. cbn in Heq. lia.
  - rewrite !string_app_cons in Heq. injection Heq as -> Heq. f_equal. by apply IH.
Qed.

Lemma section_cache_path_inj cache_dir i j :
  Main.section_cache_path cache_dir i = Main.section_cache_path cache_dir j → i = j.
Proof.
  unfold Main.section_cache_path, Py.path_join. intros Heq.
  do 3 apply (inj _) in Heq. apply string_app_inj_r in Heq. by apply (inj _) in Heq.
Qed.

Lemma under_cache_entry cache_dir name : under cache_dir (Py.path_join cache_dir name) = true.
Proof.
  unfold under, Py.path_join, Py.startswith. rewrite prefix_app.
  apply orb_true_intro. right. rewrite string_app_cons. cbn.
  destruct (Ascii.ascii_dec "/" "/"); [|done]. by destruct (_ +:+ _).
Qed.

Lemma NoDup_fmap_agree {A B} (f : A → B) (l : list A) a b :
  NoDup (f <$> l) → a ∈ l → b ∈ l → f a = f b → a = b.
Proof.
  intros Hnodup [i Hi]%list_elem_of_lookup [j Hj]%list_elem_of_lookup Hf.
  assert (i = j) as ->; [|congruence].
  apply (NoDup_lookup (f <$> l) i j (f a)); [done|..]; rewrite list_lookup_fmap.
  - by rewrite Hi.
  - by rewrite Hj, Hf.
Qed.

Lemma section_id_alter (f : DocSection.t → DocSection.t) i j (h : list DocSection.t) :
  (∀ s, DocSection.section_id (f s) = DocSection.section_id s) →
  DocSection.section_id (alter f i h !!! j) = DocSection.section_id (h !!! j).
Proof.
  intros Hf. rewrite !list_lookup_total_alt. destruct (decide (i = j)) as [->|Hne].
  - rewrite list_lookup_alter_eq. by destruct (h !! j); cbn.
  - by rewrite list_lookup_alter_ne.
Qed.

Lemma lookup_total_alter_ne (f : DocSection.t → DocSection.t) i j
    (h : list DocSection.t) :
  i ≠ j → alter f i h !!! j = h !!! j.
Proof. intros Hne. by rewrite !list_lookup_total_alt, list_lookup_alter_ne. Qed.

Section VerifyRounds.
Context `{!Externals}.

Lemma repair_section_store original_content section_plan fact_map errors w :
  fs (Writer.repair_section original_content section_plan fact_map errors w).2 = fs w
  ∧ heap (Writer.repair_section original_content section_plan fact_map errors w).2
    = heap w.
Proof.
  unfold Writer.repair_section. rewrite bind_run.
  destruct (rmapM Writer.error_line errors); [|done]. cbn [lift ret].
  unfold try_except, call_llm. by destruct (llm_tape w) as [|[reply|] tape].
Qed.

(** The end of the task: the object is written to its cache file. *)
Lemma store_section_returned section cache_path w r w' :
  (let* s := get_obj section in write_json cache_path (FSection s);; ret section) w
  = (Returned r, w') →
  r = section ∧ heap w' = heap w
  ∧ fs w' = <[cache_path := FSection (heap w !!! section)]> (fs w).
Proof.
  rewrite bind_run. unfold get_obj at 1. rewrite bind_run.
  unfold write_json. rewrite bind_run. unfold is_faulty at 1.
  destruct (bool_decide (cache_path ∈ faulty w)); [done|].
  unfold mutate. by destruct (budget w) as [[|n]|]; intros [= <- <-].
Qed.

(** A task that returns has written the object it worked on, as it has
    become, to the cache file; the other objects are as they were. *)
Lemma verify_repair_section_task_returned section section_plan fact_map table_data
    strategy_assignment cache_path w r w' :
  Main.verify_repair_section_task section section_plan fact_map table_data
    strategy_assignment cache_path w = (Returned r, w') →
  r = section
  ∧ (∀ r', DocSection.section_id (heap w' !!! r') = DocSection.section_id (heap w !!! r'))
  ∧ (∀ r', r' ≠ section → heap w' !!! r' = heap w !!! r')
  ∧ fs w' = <[cache_path := FSection (heap w' !!! section)]> (fs w).
Proof.
  unfold Main.verify_repair_section_task. rewrite bind_run. unfold get_obj at 1.
  rewrite bind_run.
  destruct (verify_section_total (DocSection.content (heap w !!! section))
              section_plan fact_map table_data strategy_assignment w)
    as (verification & w1 & -> & Hfs1 & Hheap1 & _).
  destruct (VerificationResult.ok verification).
  - rewrite bind_run. unfold update_obj at 1.
    intros (-> & Hheap & Hfs)%store_section_returned. cbn in Hheap, Hfs.
    rewrite Hheap, Hfs, Hheap1, Hfs1. split_and!; [done| | |done].
    + intros r'. by apply section_id_alter.
    + intros r' Hne. by apply lookup_total_alter_ne.
  - rewrite bind_run. unfold get_obj at 1. rewrite bind_run.
    pose proof (repair_section_store (DocSection.content (heap w1 !!! section))
                  section_plan fact_map (VerificationResult.errors verification) w1)
      as [Hfs2 Hheap2].
    destruct (Writer.repair_section _ section_plan fact_map _ w1)
      as [[repaired_content|e|] w2]; [|done..]. cbn [snd] in Hfs2, Hheap2.
    rewrite bind_run. unfold update_obj at 1. rewrite bind_run. unfold update_obj at 1.
    intros (-> & Hheap & Hfs)%store_section_returned. cbn in Hheap, Hfs.
    rewrite Hheap, Hfs, Hheap2, Hfs2, Hheap1, Hfs1. split_and!; [done| | |done].
    + intros r'. rewrite !section_id_alter; done.
    + intros r' Hne. by rewrite !lookup_total_alter_ne.
Qed.

(** The submissions of a round, when every task returned: the section ids
    stay, the sections of the document are cached as they have become, and
    a future holds the section its task was given. *)
Lemma submit_repairs_returned document_plan fact_map table_data strategy_assignment
    cache_dir document unverified :
  ∀ w futures w',
    Main.submit_repairs document_plan fact_map table_data strategy_assignment
      cache_dir unverified w = (Returned futures, w') →
    Forall (λ future, is_ok future = true) futures →
    unverified ⊆ document →
    NoDup ((λ r, DocSection.section_id (heap w !!! r)) <$> document) →
    Forall (cached cache_dir w) document →
    (∀ r, DocSection.section_id (heap w' !!! r) = DocSection.section_id (heap w !!! r))
    ∧ (∀ r, r ∉ unverified → heap w' !!! r = heap w !!! r)
    ∧ Forall (cached cache_dir w') document
    ∧ (∀ r, Ok r ∈ futures → r ∈ unverified).
Proof.
  induction unverified as [|section unverified IH];
    intros w futures w' Hrun Hok Hsub Hnodup Hcached.
  - injection Hrun as <- <-. split_and!; [done..|]. by intros r ?%elem_of_nil.
  - cbn [Main.submit_repairs] in Hrun. rewrite bind_run in Hrun.
    unfold get_obj at 1 in Hrun.
    assert (section ∈ document) as Hsection by (apply Hsub; left).
    assert (unverified ⊆ document) as Hsub' by (intros r Hr; apply Hsub; by right).
    destruct (Main.find_plan document_plan _) as [section_plan|].
    2: { destruct (IH _ _ _ Hrun Hok Hsub' Hnodup Hcached) as (Hids & Hkeep & Hc & Hin).
         split_and!; [done| |done|].
         - intros r Hr. apply Hkeep. intros ?. apply Hr. by right.
         - intros r Hr. right. by apply Hin. }
    rewrite bind_run in Hrun. unfold submit at 1 in Hrun.
    destruct (Main.verify_repair_section_task section section_plan fact_map table_data
                strategy_assignment _ w) as [[r1|e|] w1] eqn:Htask; [| |done].
    2: { rewrite bind_run in Hrun.
         destruct (Main.submit_repairs _ _ _ _ _ unverified w1) as [[rest|e'|] w2];
           [|done..].
         injection Hrun as <- <-. by apply Forall_cons in Hok as [[=] _]. }
    apply verify_repair_section_task_returned in Htask as (-> & Hids1 & Hkeep1 & Hfs1).
    rewrite bind_run in Hrun.
    destruct (Main.submit_repairs _ _ _ _ _ unverified w1) as [[rest|e'|] w2] eqn:Hrest;
      [|done..].
    injection Hrun as <- <-. apply Forall_cons in Hok as [_ Hok].
    assert (Forall (cached cache_dir w1) document) as Hcached1.
    { apply Forall_forall. intros r Hr. unfold cached.
      rewrite Forall_forall in Hcached. rewrite Hfs1, Hids1.
      destruct (decide (r = section)) as [->|Hne].
      - by rewrite lookup_insert_eq.
      - rewrite lookup_insert_ne, Hkeep1 by
          (try done; intros Heq%section_cache_path_inj;
           by apply Hne, (NoDup_fmap_agree _ _ _ _ Hnodup)).
        by apply Hcached. }
    assert (NoDup ((λ r, DocSection.section_id (heap w1 !!! r)) <$> document))
      as Hnodup1.
    { erewrite list_fmap_ext; [exact Hnodup|]. intros i r _. apply Hids1. }
    destruct (IH _ _ _ Hrest Hok Hsub' Hnodup1 Hcached1) as (Hids & Hkeep & Hc & Hin).
    split_and!; [| |done|].
    + intros r. by rewrite Hids, Hids1.
    + intros r Hr. rewrite Hkeep, Hkeep1; [done| |].
      * intros ->. apply Hr. left.
      * intros ?. apply Hr. by right.
    + intros r [[= ->]|Hr]%elem_of_cons; [left|right; by apply Hin].
Qed.

(** The futures of a round are read in any order; a future that holds an
    exception ends the loop.  With section ids that are all different the
    document keeps its references. *)
Lemma update_sections_returned done :
  ∀ document w document' w',
    Main.update_sections done document w = (Returned document', w') →
    w' = w
    ∧ Forall (λ future, is_ok future = true) done
    ∧ ((∀ r, Ok r ∈ done → r ∈ document) →
       NoDup ((λ r, DocSection.section_id (heap w !!! r)) <$> document) →
       document' = document).
Proof.
  induction done as [|future done IH]; intros document w document' w'.
  - intros [= <- <-]. split_and!; [done..|]. done.
  - cbn [Main.update_sections]. rewrite bind_run.
    destruct future as [updated|e]; [|done]. cbn [lift ret].
    rewrite bind_run. unfold get_heap at 1.
    destruct (Main.position_of (heap w) document updated) as [idx|] eqn:Hpos.
    + intros (-> & Hok & Hsame)%IH. split_and!; [done|by constructor|].
      intros Hin Hnodup.
      assert (<[idx := updated]> document = document) as Hid.
      { unfold Main.position_of in Hpos.
        destruct (list_find _ document) as [[idx' r0]|] eqn:Hfind; [|done].
        injection Hpos as ->. apply list_find_Some in Hfind as (Hidx & Hr0 & _).
        assert (r0 = updated) as ->.
        { apply (NoDup_fmap_agree _ _ _ _ Hnodup); [|apply Hin; left|done].
          by eapply list_elem_of_lookup_2. }
        by apply list_insert_id. }
      rewrite Hid in Hsame. apply Hsame; [|done].
      intros r Hr. apply Hin. by right.
    + intros (-> & Hok & Hsame)%IH. split_and!; [done|by constructor|].
      intros Hin Hnodup. apply Hsame; [|done]. intros r Hr. apply Hin. by right.
Qed.

(** The rounds, when they return: the document keeps its references,
    a section that was verified is left as it was, and every section is
    cached as it has become. *)
Lemma verify_rounds_returned task_name cache_dir document_plan fact_map table_data
    strategy_assignment document n :
  ∀ attempt w document' w',
    Main.verify_rounds task_name cache_dir document_plan fact_map table_data
      strategy_assignment n attempt document w = (Returned document', w') →
    NoDup ((λ r, DocSection.section_id (heap w !!! r)) <$> document) →
    Forall (cached cache_dir w) document →
    document' = document
    ∧ (∀ r, DocSection.section_id (heap w' !!! r) = DocSection.section_id (heap w !!! r))
    ∧ (∀ r, DocSection.verified (heap w !!! r) = true → heap w' !!! r = heap w !!! r)
    ∧ Forall (cached cache_dir w') document.
Proof.
  induction n as [|n IH]; intros attempt w document' w' Hrun Hnodup Hcached.
  - by injection Hrun as <- <-.
  - cbn [Main.verify_rounds] in Hrun. rewrite bind_run in Hrun.
    unfold get_heap at 1 in Hrun.
    set (unverified := filter (λ r, DocSection.verified (heap w !!! r) = false) document)
      in Hrun.
    assert (unverified ⊆ document) as Hsub.
    { intros r Hr. by apply list_elem_of_filter in Hr as [_ Hr]. }
    assert (∀ r, DocSection.verified (heap w !!! r) = true → r ∉ unverified) as Hver.
    { intros r Hr Hin. apply list_elem_of_filter in Hin as [Hin _]. congruence. }
    destruct unverified as [|section unverified'] eqn:Hunverified.
    { by injection Hrun as <- <-. }
    rewrite <- Hunverified in *. clear Hunverified.
    rewrite bind_run, logger_eq, bind_run in Hrun.
    destruct (Main.submit_repairs _ _ _ _ _ unverified _) as [[futures|e|] w1] eqn:Hsubmit;
      [|done..].
    rewrite bind_run in Hrun. unfold as_completed at 1 in Hrun.
    rewrite bind_run in Hrun.
    destruct (Main.update_sections _ document _) as [[document1|e|] w2] eqn:Hupdate;
      [|done..].
    apply update_sections_returned in Hupdate as (-> & Hok & Hsame).
    pose proof (completion_order_perm futures (schedule w1)) as Hperm.
    rewrite Hperm in Hok.
    destruct (submit_repairs_returned _ _ _ _ _ document _ _ _ _ Hsubmit Hok Hsub
                Hnodup Hcached) as (Hids1 & Hkeep1 & Hcached1 & Hin1).
    assert (NoDup ((λ r, DocSection.section_id (heap w1 !!! r)) <$> document))
      as Hnodup1.
    { erewrite list_fmap_ext; [exact Hnodup|]. intros i r _. apply Hids1. }
    rewrite Hsame in Hrun; [|intros r Hr; rewrite Hperm in Hr; by apply Hsub, Hin1|done].
    apply IH in Hrun as (-> & Hids & Hkeep & Hc); [|done..].
    split_and!; [done| | |done].
    + intros r. rewrite Hids. apply Hids1.
    + intros r Hr. cbn in Hkeep. rewrite Hkeep; rewrite Hkeep1; auto.
Qed.

End VerifyRounds.

(** X2.  The verify and repair rounds followed by the synthesis, for a
    document whose sections have different ids and are cached as they are,
    when the run returns: either every section is verified and the final
    document holds the text of all of them, in order; or a section is not
    verified, the final path is as it was, nothing was removed and every
    section is in its cache file as the rounds left it. *)
Theorem verify_rounds_then_commit `{!Externals} task_name final_doc_path cache_dir
    document_plan fact_map table_data strategy_assignment rounds document w w' :
  under cache_dir final_doc_path = false →
  NoDup ((λ r, DocSection.section_id (heap w !!! r)) <$> document) →
  Forall (cached cache_dir w) document →
  (let* document' :=
     Main.verify_rounds task_name cache_dir document_plan fact_map table_data
       strategy_assignment rounds 0 document in
   Main.synthesize task_name final_doc_path cache_dir document') w
  = (Returned (), w') →
  (all_verified (sections_of w' document)
   ∧ fs w' !! final_doc_path = Some (FText (final_text (sections_of w' document))))
  ∨ (¬ all_verified (sections_of w' document)
     ∧ fs w' !! final_doc_path = fs w !! final_doc_path
     ∧ removed w' = removed w
     ∧ Forall (cached cache_dir w') document).
Proof.
  intros Hunder Hnodup Hcached (document' & w1 & Hrounds & Hsynth)%bind_Returned.
  assert (untouched final_doc_path w w1) as [Hremoved1 Hfinal1].
  { assert (∀ name, writable (untouched final_doc_path) (Py.path_join cache_dir name))
      as Hwritable.
    { intros name. apply untouched_writable. intros Heq.
      pose proof (under_cache_entry cache_dir name) as Hentry. congruence. }
    pose proof (verify_rounds_footprint (untouched final_doc_path) task_name cache_dir
                  document_plan fact_map table_data strategy_assignment rounds
                  Hwritable 0 document w) as Hpres.
    by rewrite Hrounds in Hpres. }
  apply verify_rounds_returned in Hrounds as (-> & _ & _ & Hcached1); [|done..].
  apply synthesize_outcome in Hsynth
    as (Hheap & [(Hnot & _ & Hfs & Hremoved)
                |(Hall & [(Hne & _)|(Hfinal & _)])]); [|by destruct Hne| |done].
  - right. unfold sections_of. rewrite Hheap. split_and!; [done| | |].
    + by rewrite Hfs.
    + congruence.
    + eapply Forall_impl; [exact Hcached1|]. intros r Hr. unfold cached.
      by rewrite Hheap, Hfs.
  - left. unfold sections_of. rewrite Hheap. by split.
Qed.

Lemma verify_rounds_then_commit_witness :
  let w' :=
    ((let* document' :=
        Main.verify_rounds (H := Examples.toy) "t" "document/t/cache"
          (Examples.two_sections [] []) [] Examples.empty_table
          (StrategyAssignment.Build ∅) 4 0 [0] in
      Main.synthesize "t" "document/t/final_document.md" "document/t/cache" document')
       Examples.pending_world).2 in
  (all_verified (sections_of w' [0])
   ∧ fs w' !! "document/t/final_document.md"
     = Some (FText (final_text (sections_of w' [0]))))
  ∨ (¬ all_verified (sections_of w' [0])
     ∧ fs w' !! "document/t/final_document.md"
       = fs Examples.pending_world !! "document/t/final_document.md"
     ∧ removed w' = removed Examples.pending_world
     ∧ Forall (cached "document/t/cache" w') [0]).
Proof.
  apply (verify_rounds_then_commit (H := Examples.toy) "t"
           "document/t/final_document.md" "document/t/cache"
           (Examples.two_sections [] []) [] Examples.empty_table
           (StrategyAssignment.Build ∅) 4 [0] Examples.pending_world).
  - vm_compute. reflexivity.
  - apply NoDup_singleton.
  - repeat constructor.
  - vm_compute. reflexivity.
Defined.

(** ** Verified sections are left alone *)

Section VerifiedKept.
Context `{!Externals}.

Lemma store_section_heap section cache_path w :
  heap ((let* s := get_obj section in write_json cache_path (FSection s);; ret section)
          w).2 = heap w.
Proof.
  rewrite bind_run. unfold get_obj at 1. rewrite bind_run.
  unfold write_json. rewrite bind_run. unfold is_faulty at 1.
  destruct (bool_decide (cache_path ∈ faulty w)); [done|].
  unfold mutate. by destruct (budget w) as [[|n]|].
Qed.

(** A task works on its own object, however it ends. *)
Lemma verify_repair_section_task_others section section_plan fact_map table_data
    strategy_assignment cache_path w r :
  r ≠ section →
  heap (Main.verify_repair_section_task section section_plan fact_map table_data
          strategy_assignment cache_path w).2 !!! r = heap w !!! r.
Proof.
  intros Hne. unfold Main.verify_repair_section_task. rewrite bind_run.
  unfold get_obj at 1. rewrite bind_run.
  destruct (verify_section_total (DocSection.content (heap w !!! section))
              section_plan fact_map table_data strategy_assignment w)
    as (verification & w1 & -> & _ & Hheap1 & _).
  destruct (VerificationResult.ok verification).
  - rewrite bind_run. unfold update_obj at 1. rewrite store_section_heap. cbn.
    by rewrite Hheap1, lookup_total_alter_ne.
  - rewrite bind_run. unfold get_obj at 1. rewrite bind_run.
    pose proof (repair_section_store (DocSection.content (heap w1 !!! section))
                  section_plan fact_map (VerificationResult.errors verification) w1)
      as [_ Hheap2].
    destruct (Writer.repair_section _ section_plan fact_map _ w1)
      as [[repaired_content|e|] w2]; cbn [snd] in Hheap2 |- *; [|congruence..].
    rewrite bind_run. unfold update_obj at 1. rewrite bind_run. unfold update_obj at 1.
    rewrite store_section_heap. cbn.
    by rewrite !lookup_total_alter_ne, Hheap2, Hheap1.
Qed.

Lemma submit_repairs_others document_plan fact_map table_data strategy_assignment
    cache_dir unverified :
  ∀ w r,
    r ∉ unverified →
    heap (Main.submit_repairs document_plan fact_map table_data strategy_assignment
            cache_dir unverified w).2 !!! r = heap w !!! r.
Proof.
  induction unverified as [|section unverified IH]; intros w r Hr; [done|].
  apply not_elem_of_cons in Hr as [Hne Hr].
  cbn [Main.submit_repairs]. rewrite bind_run. unfold get_obj at 1.
  destruct (Main.find_plan document_plan _) as [section_plan|]; [|by apply IH].
  rewrite bind_run. unfold submit at 1.
  pose proof (verify_repair_section_task_others section section_plan fact_map
                table_data strategy_assignment
                (Main.section_cache_path cache_dir
                   (DocSection.section_id (heap w !!! section))) w r Hne) as Htask.
  destruct (Main.verify_repair_section_task _ _ _ _ _ _ w) as [[r1|e|] w1];
    cbn [snd] in Htask; [| |done].
  all: rewrite bind_run; specialize (IH w1 r Hr);
    destruct (Main.submit_repairs _ _ _ _ _ unverified w1) as [[rest|e'|] w2];
    cbn [snd ret] in IH |- *; congruence.
Qed.

Lemma update_sections_heap done :
  ∀ document w, heap (Main.update_sections done document w).2 = heap w.
Proof.
  induction done as [|future done IH]; intros document w; [done|].
  cbn [Main.update_sections]. rewrite bind_run.
  destruct future as [updated|e]; [|done]. cbn [lift ret].
  rewrite bind_run. unfold get_heap at 1.
  destruct (Main.position_of _ _ _); apply IH.
Qed.

End VerifiedKept.

(** X3.  A section that is verified when the verify and repair rounds
    start is the same object content when they end, however they end
    (return, exception, stop) and whatever happens to the other
    sections. *)
Theorem verified_section_kept `{!Externals} task_name cache_dir document_plan fact_map
    table_data strategy_assignment rounds attempt document w r :
  DocSection.verified (heap w !!! r) = true →
  heap (Main.verify_rounds task_name cache_dir document_plan fact_map table_data
          strategy_assignment rounds attempt document w).2 !!! r
  = heap w !!! r.
Proof.
  revert attempt document w.
  induction rounds as [|rounds IH]; intros attempt document w Hverified; [done|].
  cbn [Main.verify_rounds]. rewrite bind_run. unfold get_heap at 1.
  set (unverified := filter (λ r, DocSection.verified (heap w !!! r) = false) document).
  assert (r ∉ unverified) as Hr.
  { intros [Hfalse _]%list_elem_of_filter. congruence. }
  destruct unverified as [|section unverified'] eqn:Hunverified; [done|].
  rewrite <- Hunverified in *. clear Hunverified.
  rewrite bind_run, logger_eq, bind_run.
  pose proof (submit_repairs_others document_plan fact_map table_data strategy_assignment
                cache_dir unverified
                (set_log ((DEBUG, "[" +:+ task_name +:+ "] Verify/Repair attempt "
                                  +:+ pretty (attempt + 1)) :: log w) w) r Hr) as Hsubmit.
  destruct (Main.submit_repairs _ _ _ _ _ unverified _) as [[futures|e|] w1];
    cbn [snd] in Hsubmit; [|done..].
  rewrite bind_run. unfold as_completed at 1. rewrite bind_run.
  match goal with
  | |- context [Main.update_sections ?d ?doc ?w2] =>
      pose proof (update_sections_heap d doc w2) as Hupdate;
      destruct (Main.update_sections d doc w2) as [[document1|e|] w3]
  end; cbn [snd heap set_log set_schedule] in Hupdate, Hsubmit |- *;
    [|by rewrite Hupdate..].
  rewrite IH; by rewrite Hupdate, ?Hsubmit.
Qed.

Lemma verified_section_kept_witness :
  heap (Main.verify_rounds (H := Examples.toy) "t" "document/t/cache"
          (Examples.two_sections [] []) [] Examples.empty_table
          (StrategyAssignment.Build ∅) 4 0 [0; 1] Examples.mixed_world).2 !!! 0
  = heap Examples.mixed_world !!! 0.
Proof.
  apply (verified_section_kept (H := Examples.toy)). reflexivity.
Defined.
